(** * perltidy-more: the formatter service and its range resolution

    A shallow embedding of [src/formatter.ts] (both revisions that the
    sources contain: the first one spawns a process per call, the second
    one keeps a per-workspace cache of processes) and of the extension
    entry points (range formatting, on-type formatting).

    Conventions of the embedding:
    - a JavaScript string is a [string]; its characters are the code
      units below 256;
    - a Node [Buffer] is a [string] too, read as its bytes; it becomes a
      JavaScript string only through [Buffer.toString], which belongs to
      the surroundings;
    - line and column numbers are [nat] (a [vscode.Position] refuses
      negative numbers), exit codes are [Z], [null] is [None];
    - a function that can throw returns a [Res]; a method that reads or
      changes the formatter or starts a process is a function of the
      [State], which also records the effects in a chronological log;
    - a promise that settles later is a [Call] record fed with the events
      of the child process. *)

From Stdlib Require Import ZArith Ascii DecimalString.
From stdpp Require Import gmap strings list.

(** ** JavaScript primitives *)

Module Js.

(** Truthiness of a string: only the empty string is falsy. *)
Definition truthy (s : string) : bool := negb (String.eqb s "").

(** [s.length] *)
Definition length (s : string) : nat := String.length s.

(** [s.substring(a, b)]: both indices are clamped to the length and
    swapped when out of order. *)
Definition substring (a b : nat) (s : string) : string :=
  let a' := a `min` length s in
  let b' := b `min` length s in
  String.substring (a' `min` b') ((a' `max` b') - (a' `min` b')) s.

(** [s.lastIndexOf(c)] for a one-character needle; -1 when absent. *)
Fixpoint lastIndexOf (s : string) (c : ascii) : Z :=
  match s with
  | EmptyString => -1
  | String a s' =>
      let r := lastIndexOf s' c in
      if (0 <=? r)%Z then (r + 1)%Z
      else if Ascii.eqb a c then 0%Z else (-1)%Z
  end.

(** The class [\s] on code units below 256: tab, line feed, vertical
    tab, form feed, carriage return, space, no-break space. *)
Definition isSpace (c : ascii) : bool :=
  let n := nat_of_ascii c in
  ((9 <=? n) && (n <=? 13)) || (n =? 32) || (n =? 160).

(** [s.match(/^\s*$/)] as a truth value: the regular expression has no
    flag, so it accepts exactly the strings made of [\s] only. *)
Fixpoint matchBlank (s : string) : bool :=
  match s with
  | EmptyString => true
  | String a s' => isSpace a && matchBlank s'
  end.

(** [parts.join(sep)] *)
Definition join (sep : string) (parts : list string) : string :=
  String.concat sep parts.

(** A number inside a template literal: decimal digits, with a minus
    sign when negative; [null] prints as the word. *)
Definition showNumber (z : Z) : string := NilZero.string_of_int (Z.to_int z).

Definition showCode (code : option Z) : string :=
  match code with
  | Some z => showNumber z
  | None => "null"
  end.

End Js.

(** ** Thrown values and results *)

(** Modelled from the spec: [./error] is not among the sources.
    [formatter.ts] imports [FormatError] and [isErrnoException] from it
    and constructs no other error class; the specification's taxonomy
    additionally names a [ConfigurationError] class, kept here as a
    separate constructor so that the two classes can be told apart.
    [ErrnoException] is Node's system error with its [code];
    [OtherError] is any other thrown value. *)
Inductive Thrown : Type :=
| FormatError (message : string)
| ConfigurationError (message : string)
| ErrnoException (code : string) (message : string)
| OtherError (message : string).

(** Modelled from the spec: the type guard [isErrnoException] of
    [./error]. *)
Definition isErrnoException (e : Thrown) : bool :=
  match e with
  | ErrnoException _ _ => true
  | _ => false
  end.

Definition errnoCode (e : Thrown) : option string :=
  match e with
  | ErrnoException c _ => Some c
  | _ => None
  end.

Inductive Res (A : Type) : Type :=
| Ok (a : A)
| Throw (e : Thrown).
Arguments Ok {A} a.
Arguments Throw {A} e.

Definition res_bind {A B} (r : Res A) (k : A -> Res B) : Res B :=
  match r with
  | Ok a => k a
  | Throw e => Throw e
  end.

Notation "'let?' x := r 'in' k" := (res_bind r (fun x => k))
  (at level 10, x name, r at level 100, k at level 200).

(** ** The host's document model (vscode) *)

Record Position : Type := mkPosition { line : nat; character : nat }.

(** [a.isBefore(b)] *)
Definition isBefore (a b : Position) : bool :=
  (line a <? line b) || ((line a =? line b) && (character a <? character b)).

Definition isBeforeOrEqual (a b : Position) : bool :=
  (line a <? line b) || ((line a =? line b) && (character a <=? character b)).

Definition isEqual (a b : Position) : bool :=
  (line a =? line b) && (character a =? character b).

Record Range : Type := mkRange { start : Position; end_ : Position }.

(** [new vscode.Range(a, b)]: the constructor orders its two ends. *)
Definition newRange (a b : Position) : Range :=
  if isBefore a b then mkRange a b else mkRange b a.

Definition isEmpty (r : Range) : bool := isEqual (start r) (end_ r).

Definition isSingleLine (r : Range) : bool := line (start r) =? line (end_ r).

(** Every [vscode.Range] object satisfies [start <= end]. *)
Definition wfRange (r : Range) : Prop :=
  isBeforeOrEqual (start r) (end_ r) = true.

Record Uri : Type := mkUri { scheme : string; path : string; fsPath : string }.

(** A document: [documentUri] is its [uri] field (the bare name is kept
    for the workspace folder, where the source reads it most), [eol] its
    line ending and [lines] its lines without their endings. *)
Record TextDocument : Type :=
  mkDocument { documentUri : Uri; eol : string; lines : list string }.

Definition lineCount (document : TextDocument) : nat := length (lines document).

(** [document.lineAt(n).text]; the host throws outside the document. *)
Definition lineAt (document : TextDocument) (n : nat) : Res string :=
  match lines document !! n with
  | Some text => Ok text
  | None => Throw (OtherError "Illegal value for `line`")
  end.

Definition lineText (document : TextDocument) (n : nat) : string :=
  default "" (lines document !! n).

(** The host clamps a position to the document before it reads text. *)
Definition validatePosition (document : TextDocument) (p : Position) : Position :=
  if lineCount document =? 0 then mkPosition 0 0
  else if lineCount document <=? line p then
    mkPosition (lineCount document - 1)
               (Js.length (lineText document (lineCount document - 1)))
  else
    mkPosition (line p)
               (character p `min` Js.length (lineText document (line p))).

Definition validateRange (document : TextDocument) (r : Range) : Range :=
  newRange (validatePosition document (start r))
           (validatePosition document (end_ r)).

(** [document.getText(range)] *)
Definition getText (document : TextDocument) (range : Range) : string :=
  let r := validateRange document range in
  if isEmpty r then ""
  else if isSingleLine r then
    Js.substring (character (start r)) (character (end_ r))
                 (lineText document (line (start r)))
  else
    let first :=
      Js.substring (character (start r))
                   (Js.length (lineText document (line (start r))))
                   (lineText document (line (start r))) in
    let middle :=
      take (line (end_ r) - line (start r) - 1)
           (drop (S (line (start r))) (lines document)) in
    let last :=
      Js.substring 0 (character (end_ r)) (lineText document (line (end_ r))) in
    Js.join (eol document) (first :: middle ++ [last]).

(** ** Range resolution (the extension's entry points) *)

(** [get_range(document, range, selection)] *)
Definition get_range (document : TextDocument)
    (range : option Range) (selection : option Range) : Res Range :=
  let range :=
    match selection with
    | Some sel =>
        if negb (isEmpty sel) then Some (newRange (start sel) (end_ sel))
        else range
    | None => range
    end in
  match range with
  | Some r => Ok r
  | None =>
      match lineCount document with
      | 0 => Throw (OtherError "Illegal value for `line`")
      | S n =>
          let? text := lineAt document n in
          Ok (newRange (mkPosition 0 0) (mkPosition n (Js.length text)))
      end
  end.

(** The range that [provideDocumentRangeFormattingEdits] hands to
    [formatter.format]. *)
Definition rangeFormattingRange (document : TextDocument) (range : Range)
  : Res Range :=
  let indentRange :=
    newRange (mkPosition (line (start range)) 0) (start range) in
  let range :=
    if Js.matchBlank (getText document indentRange)
    then newRange (mkPosition (line (start range)) 0) (end_ range)
    else range in
  get_range document (Some range) None.

(** The [while] loop of [provideOnTypeFormattingEdits]; the argument [n]
    is [lineNumber + 1], so the loop condition [lineNumber >= 0] is
    [n] being a successor. *)
Fixpoint scanBack (document : TextDocument) (n : nat) : Res Position :=
  match n with
  | 0 => Ok (mkPosition 0 0)
  | S lineNumber =>
      let? text := lineAt document lineNumber in
      let indexOfSemicolon := Js.lastIndexOf text ";" in
      if (0 <=? indexOfSemicolon)%Z then Ok (mkPosition (lineNumber + 1) 0)
      else scanBack document lineNumber
  end.

(** The range that [provideOnTypeFormattingEdits] hands to
    [formatter.format]. *)
Definition onTypeFormattingRange (document : TextDocument)
    (position : Position) : Res Range :=
  let? start := scanBack document (line position) in
  Ok (newRange start position).

(** ** Workspaces, configuration and the process world *)

(** [vscode.WorkspaceFolder]. The cache is a JavaScript [Map] keyed by
    these objects; the host hands out one object per folder, so object
    identity is equality of the records. *)
Record WorkspaceFolder : Type :=
  mkWorkspaceFolder { uri : Uri; name : string; index : nat }.

#[global] Instance Uri_eq_dec : EqDecision Uri.
Proof. solve_decision. Defined.

#[global] Instance Uri_countable : Countable Uri.
Proof.
  apply (inj_countable' (fun u => (scheme u, path u, fsPath u))
                        (fun t => mkUri t.1.1 t.1.2 t.2)).
  by intros [].
Defined.

#[global] Instance WorkspaceFolder_eq_dec : EqDecision WorkspaceFolder.
Proof. solve_decision. Defined.

#[global] Instance WorkspaceFolder_countable : Countable WorkspaceFolder.
Proof.
  apply (inj_countable' (fun w => (uri w, name w, index w))
                        (fun t => mkWorkspaceFolder t.1.1 t.1.2 t.2)).
  by intros [].
Defined.

(** The bytes of a Node [Buffer], one per character. *)
Definition Buffer : Type := string.

(** What the formatter reads from its surroundings: the three settings
    of the [perltidy-more] configuration section, the file system test,
    Node's [path] functions, the host's workspace lookup, whether
    writing a text to the input stream of a process raises, and
    [Buffer.toString], which decodes the bytes of one buffer (as UTF-8)
    into a JavaScript string. [path.join] never returns the empty
    string (it returns ["."] instead). *)
Record Env : Type := mkEnv {
  executableSetting : string;
  profileSetting : string;
  autoDisableSetting : bool;
  existsSync : string -> bool;
  isAbsolute : string -> bool;
  join : string -> string -> string;
  getWorkspaceFolder : Uri -> option WorkspaceFolder;
  stdinRaises : nat -> string -> option Thrown;
  bufferToString : Buffer -> string;
  join_nonempty : forall a b, join a b <> ""
}.

(** The object that [createWorker] returns: the child process (named by
    the order in which it was spawned) and the executable it runs. *)
Record Handle : Type := mkHandle { worker : nat; executable : string }.

(** [Spawn] records a call of [child_process.spawn] with its arguments;
    [pid] is the number of the process that the call returns, when it
    returns one. *)
Inductive Effect : Type :=
| Spawn (pid : nat) (file : string) (args : list string) (cwd : string)
| StdinWrite (pid : nat) (text : string)
| StdinEnd (pid : nat)
| CacheSet (workspace : WorkspaceFolder) (pid : nat)
| CacheDelete (workspace : option WorkspaceFolder).

(** The formatter object and the process world: the cache (unused by the
    first revision, whose class has no field), the number of processes
    spawned so far, and the effects in the order they happened. *)
Record State : Type := mkState {
  workerCacheMap : gmap WorkspaceFolder Handle;
  spawned : nat;
  log : list Effect
}.

Definition emit (e : Effect) (s : State) : State :=
  mkState (workerCacheMap s) (spawned s) (log s ++ [e]).

Definition M (A : Type) : Type := State -> Res A * State.

Definition ret {A} (a : A) : M A := fun s => (Ok a, s).

Definition throw {A} (e : Thrown) : M A := fun s => (Throw e, s).

Definition bind {A B} (m : M A) (k : A -> M B) : M B :=
  fun s =>
    match m s with
    | (Ok a, s') => k a s'
    | (Throw e, s') => (Throw e, s')
    end.

Notation "'let!' x := m 'in' k" := (bind m (fun x => k))
  (at level 10, x name, m at level 100, k at level 200).

(** What [child_process.spawn] throws for an empty file name. *)
Definition emptyFileError : Thrown :=
  OtherError "The argument 'file' cannot be empty. Received ''".

(** [child_process.spawn]: validates its arguments and throws a
    [TypeError] when the file name is empty; otherwise it returns a
    process object, and a failure to start is reported later by the
    [error] event. *)
Definition spawn (file : string) (args : list string) (cwd : string) : M nat :=
  fun s =>
    if String.eqb file "" then
      (Throw emptyFileError,
       mkState (workerCacheMap s) (spawned s)
               (log s ++ [Spawn (spawned s) file args cwd]))
    else
      (Ok (spawned s),
       mkState (workerCacheMap s) (S (spawned s))
               (log s ++ [Spawn (spawned s) file args cwd])).

(** [worker.stdin.write(text); worker.stdin.end();] *)
Definition stdinWriteEnd (env : Env) (pid : nat) (text : string) : M unit :=
  fun s =>
    match stdinRaises env pid text with
    | Some e => (Throw e, s)
    | None => (Ok tt, emit (StdinEnd pid) (emit (StdinWrite pid text) s))
    end.

(** [this.workerCacheMap.get(workspace)] *)
Definition cacheGet (workspace : WorkspaceFolder) : M (option Handle) :=
  fun s => (Ok (workerCacheMap s !! workspace), s).

(** [this.workerCacheMap.set(workspace, result)] *)
Definition cacheSet (workspace : WorkspaceFolder) (h : Handle) : M unit :=
  fun s =>
    (Ok tt,
     mkState (<[workspace := h]> (workerCacheMap s)) (spawned s)
             (log s ++ [CacheSet workspace (worker h)])).

(** [this.workerCacheMap.delete(currentWorkspace!)]; the key may be
    [undefined], which no entry has. *)
Definition cacheDelete (workspace : option WorkspaceFolder) : M unit :=
  fun s =>
    (Ok tt,
     mkState (match workspace with
              | Some w => delete w (workerCacheMap s)
              | None => workerCacheMap s
              end)
             (spawned s) (log s ++ [CacheDelete workspace])).

(** ** Promises and process events *)

(** How a promise settles; [Resolved None] is [undefined]. *)
Inductive Outcome : Type :=
| Resolved (value : option string)
| Rejected (e : Thrown).

(** The closure of one [format] call that waits for its process. A
    promise settles once: later calls of [resolve] or [reject] do
    nothing. *)
Record Call : Type := mkCall {
  currentWorkspace : option WorkspaceFolder;
  callWorker : nat;
  callExecutable : string;
  result_text : string;
  error_text : string;
  settled : option Outcome
}.

Inductive Started : Type :=
| Done (o : Outcome)
| Pending (c : Call).

(** The events of a child process; the streams have no encoding set,
    so a [data] event carries a [Buffer]. *)
Inductive Event : Type :=
| ErrorEvent (e : Thrown)
| StdoutData (chunk : Buffer)
| StderrData (chunk : Buffer)
| CloseEvent (code : option Z).

Definition settle (o : Outcome) (c : Call) : Call :=
  match settled c with
  | Some _ => c
  | None =>
      mkCall (currentWorkspace c) (callWorker c) (callExecutable c)
             (result_text c) (error_text c) (Some o)
  end.

(** [result_text += chunk]: adding a [Buffer] to a string converts the
    buffer with [toString], each chunk on its own. *)
Definition appendResult (env : Env) (chunk : Buffer) (c : Call) : Call :=
  mkCall (currentWorkspace c) (callWorker c) (callExecutable c)
         (result_text c +:+ bufferToString env chunk) (error_text c)
         (settled c).

(** [error_text += chunk] *)
Definition appendError (env : Env) (chunk : Buffer) (c : Call) : Call :=
  mkCall (currentWorkspace c) (callWorker c) (callExecutable c)
         (result_text c) (error_text c +:+ bufferToString env chunk)
         (settled c).

Definition noWorkspaceMessage : string :=
  "Format failed. File must be belong to one workspace at least.".

(** The body of the [error] handler after the cache is dealt with. *)
Definition errorOutcome (executable : string) (e : Thrown) : Outcome :=
  if isErrnoException e && bool_decide (errnoCode e = Some "ENOENT") then
    if String.eqb executable "perltidy" then
      Rejected (FormatError
        ("Format failed. Executable file (`" +:+ executable +:+
         "`) is not found. You probably forgot to install perltidy."))
    else
      Rejected (FormatError
        ("Format failed. Executable file (`" +:+ executable +:+
         "`) is not found."))
  else Rejected e.

(** The body of the [close] handler after the cache is dealt with. *)
Definition closeOutcome (code : option Z) (c : Call) : Outcome :=
  if negb (bool_decide (code = Some 0%Z)) then
    if String.eqb (error_text c) "" then
      Rejected (FormatError
        ("Format failed. Perltidy exited with exit code " +:+
         Js.showCode code +:+ "."))
    else
      Rejected (FormatError
        ("Format failed. Perltidy exited with exit code " +:+
         Js.showCode code +:+ ". Error messages: " +:+ error_text c))
  else Resolved (Some (result_text c)).

(** ** [createWorker] (the same in both revisions) *)

Definition createWorker (env : Env) (workspace : WorkspaceFolder) : M Handle :=
  let executable := executableSetting env in
  let profile := profileSetting env in
  let args := ["--standard-output"; "-no-add-terminal-newline"] in
  let args :=
    if Js.truthy profile then args ++ ["--profile=" +:+ profile] else args in
  let cwd := fsPath (uri workspace) in
  let cwd :=
    if negb (String.eqb (scheme (uri workspace)) "file") then "." else cwd in
  let '(executable, cwd) :=
    if negb (isAbsolute env executable) then
      let resolved := join env (path (uri workspace)) executable in
      if existsSync env resolved then (resolved, path (uri workspace))
      else (executable, cwd)
    else (executable, cwd) in
  let! pid := spawn executable args cwd in
  ret (mkHandle pid executable).

(** ** First revision: one process per call, no cache *)

Module FormatterV1.
Section WithEnv.
Context (env : Env).

(** [Formatter.format]: either settles at once or waits for the events
    of the process it started. *)
Definition format (document : TextDocument) (range : Range)
  : State -> Started * State :=
  fun s =>
    let text := getText document range in
    if negb (Js.truthy text) || (Js.length text =? 0)
    then (Done (Resolved (Some "")), s)
    else
      match getWorkspaceFolder env (documentUri document) with
      | None => (Done (Rejected (FormatError noWorkspaceMessage)), s)
      | Some currentWorkspace =>
          if autoDisableSetting env
             && negb (existsSync env
                        (join env (path (uri currentWorkspace)) ".perltidyrc"))
          then (Done (Resolved None), s)
          else
            match createWorker env currentWorkspace s with
            | (Throw e, s1) => (Done (Rejected e), s1)
            | (Ok h, s1) =>
                match stdinWriteEnd env (worker h) text s1 with
                | (Ok _, s2) =>
                    (Pending (mkCall (Some currentWorkspace) (worker h)
                                     (executable h) "" "" None), s2)
                | (Throw error, s2) => (Done (Rejected error), s2)
                end
            end
      end.

(** The four handlers that [format] registers on the process. *)
Definition onEvent (c : Call) (ev : Event) : State -> Call * State :=
  fun s =>
    match ev with
    | ErrorEvent e => (settle (errorOutcome (callExecutable c) e) c, s)
    | StdoutData chunk => (appendResult env chunk c, s)
    | StderrData chunk => (appendError env chunk c, s)
    | CloseEvent code => (settle (closeOutcome code c) c, s)
    end.

Fixpoint runEvents (c : Call) (evs : list Event) (s : State) : Call * State :=
  match evs with
  | [] => (c, s)
  | ev :: evs' => let '(c', s') := onEvent c ev s in runEvents c' evs' s'
  end.

End WithEnv.
End FormatterV1.

(** ** Second revision: a cache of standing-by processes *)

Module FormatterV2.
Section WithEnv.
Context (env : Env).

Definition isFormatEnabled (workspace : WorkspaceFolder) : bool :=
  if autoDisableSetting env then
    if negb (existsSync env (join env (path (uri workspace)) ".perltidyrc"))
    then false
    else true
  else true.

(** [Formatter.standBy] *)
Definition standBy (workspace : option WorkspaceFolder) : M Handle :=
  match workspace with
  | None => throw (FormatError noWorkspaceMessage)
  | Some workspace =>
      if negb (isFormatEnabled workspace)
      then throw (FormatError noWorkspaceMessage)
      else
        let! result := cacheGet workspace in
        match result with
        | Some result => ret result
        | None =>
            let! result := createWorker env workspace in
            let! _ := cacheSet workspace result in
            ret result
        end
  end.

(** [this.workerCacheMap.delete(currentWorkspace!); this.standBy(currentWorkspace!);]
    The promise of [standBy] is dropped, so a rejection is lost while
    the changes it made stay. *)
Definition evict (workspace : option WorkspaceFolder) : State -> State :=
  fun s =>
    let s1 := snd (cacheDelete workspace s) in
    snd (standBy workspace s1).

(** [Formatter.format] *)
Definition format (document : TextDocument) (range : Range)
  : State -> Started * State :=
  fun s =>
    let text := getText document range in
    if negb (Js.truthy text) || (Js.length text =? 0)
    then (Done (Resolved (Some "")), s)
    else
      let currentWorkspace := getWorkspaceFolder env (documentUri document) in
      match standBy currentWorkspace s with
      | (Throw e, s1) => (Done (Rejected e), s1)
      | (Ok h, s1) =>
          match stdinWriteEnd env (worker h) text s1 with
          | (Ok _, s2) =>
              (Pending (mkCall currentWorkspace (worker h)
                               (executable h) "" "" None), s2)
          | (Throw error, s2) =>
              (Done (Rejected error), evict currentWorkspace s2)
          end
      end.

(** The four handlers that [format] registers on the process. *)
Definition onEvent (c : Call) (ev : Event) : State -> Call * State :=
  fun s =>
    match ev with
    | ErrorEvent e =>
        let s' := evict (currentWorkspace c) s in
        (settle (errorOutcome (callExecutable c) e) c, s')
    | StdoutData chunk => (appendResult env chunk c, s)
    | StderrData chunk => (appendError env chunk c, s)
    | CloseEvent code =>
        let s' := evict (currentWorkspace c) s in
        (settle (closeOutcome code c) c, s')
    end.

Fixpoint runEvents (c : Call) (evs : list Event) (s : State) : Call * State :=
  match evs with
  | [] => (c, s)
  | ev :: evs' => let '(c', s') := onEvent c ev s in runEvents c' evs' s'
  end.

End WithEnv.
End FormatterV2.

(** ** Vocabulary of the properties *)

(** The character [c] occurs in [s]. *)
Definition contains (c : ascii) (s : string) : Prop :=
  exists i, String.get i s = Some c.

(** Line [j] of the document exists and contains a semicolon. *)
Definition hasSemicolon (document : TextDocument) (j : nat) : Prop :=
  exists text, lines document !! j = Some text /\ contains ";" text.

(** Every character of the line of [p] that lies before [p] is white
    space. *)
Definition indentOnly (document : TextDocument) (p : Position) : Prop :=
  forall i c,
    i < character p ->
    String.get i (lineText document (line p)) = Some c ->
    Js.isSpace c = true.

(** A position inside the document. *)
Definition inDocument (document : TextDocument) (p : Position) : Prop :=
  line p < lineCount document.

(** A printable character: from the space to the tilde. *)
Definition isPrintable (c : ascii) : bool :=
  let n := nat_of_ascii c in (32 <=? n) && (n <=? 126).

Fixpoint noPrintableContent (s : string) : bool :=
  match s with
  | EmptyString => true
  | String a s' => negb (isPrintable a) && noPrintableContent s'
  end.

(** [needle] occurs inside [s]. *)
Definition mentions (needle s : string) : Prop :=
  exists pre post, s = pre +:+ needle +:+ post.

(** The text that the data events of one stream add up to: the chunks
    in their order, each decoded on its own. *)
Fixpoint stdoutOf (env : Env) (evs : list Event) : string :=
  match evs with
  | [] => ""
  | StdoutData chunk :: evs' => bufferToString env chunk +:+ stdoutOf env evs'
  | _ :: evs' => stdoutOf env evs'
  end.

Fixpoint stderrOf (env : Env) (evs : list Event) : string :=
  match evs with
  | [] => ""
  | StderrData chunk :: evs' => bufferToString env chunk +:+ stderrOf env evs'
  | _ :: evs' => stderrOf env evs'
  end.

(** The bytes that the process wrote to one stream: the content of the
    stream, whatever the chunks it arrived in. *)
Fixpoint stdoutBytes (evs : list Event) : Buffer :=
  match evs with
  | [] => ""
  | StdoutData chunk :: evs' => chunk +:+ stdoutBytes evs'
  | _ :: evs' => stdoutBytes evs'
  end.

Fixpoint stderrBytes (evs : list Event) : Buffer :=
  match evs with
  | [] => ""
  | StderrData chunk :: evs' => chunk +:+ stderrBytes evs'
  | _ :: evs' => stderrBytes evs'
  end.

(** The file name and the working directory that [createWorker] hands
    to [spawn] for a workspace. *)
Definition spawnTarget (env : Env) (workspace : WorkspaceFolder) : string :=
  if negb (isAbsolute env (executableSetting env))
     && existsSync env (join env (path (uri workspace)) (executableSetting env))
  then join env (path (uri workspace)) (executableSetting env)
  else executableSetting env.

Definition spawnCwd (env : Env) (workspace : WorkspaceFolder) : string :=
  if negb (isAbsolute env (executableSetting env))
     && existsSync env (join env (path (uri workspace)) (executableSetting env))
  then path (uri workspace)
  else if String.eqb (scheme (uri workspace)) "file"
       then fsPath (uri workspace) else ".".

Definition isData (ev : Event) : bool :=
  match ev with
  | StdoutData _ | StderrData _ => true
  | _ => false
  end.

Definition isErrorOrClose (ev : Event) : bool :=
  match ev with
  | ErrorEvent _ | CloseEvent _ => true
  | _ => false
  end.

(** The argument list the interface documents: the two fixed options,
    then the profile option when a profile is configured. *)
Definition expectedArgs (profile : string) : list string :=
  if decide (profile = "")
  then ["--standard-output"; "-no-add-terminal-newline"]
  else ["--standard-output"; "-no-add-terminal-newline";
        "--profile=" +:+ profile].

(** Every cached handle names a process that was spawned. *)
Definition wfState (s : State) : Prop :=
  forall workspace h,
    workerCacheMap s !! workspace = Some h -> worker h < spawned s.

(** A call that has just been handed its process: nothing accumulated,
    not settled. *)
Definition freshCall (c : Call) : Prop :=
  result_text c = "" /\ error_text c = "" /\ settled c = None.

(** ** The entry points of the extension *)

(** [vscode.TextEdit]: replace [editRange] by [newText]. *)
Record TextEdit : Type := mkTextEdit { editRange : Range; newText : string }.

(** What an entry point has done when it returns: the edits it hands to
    the host (or applies, for the command), if any, and the error it
    passed to [handleTidyError], if any. *)
Record Reply : Type :=
  mkReply { edits : option (list TextEdit); handled : option Thrown }.

Module Extension.
Section WithEnv.
Context (env : Env).

(** [await formatter.format(document, range)], given the events that
    the process delivers while the caller waits: the way the promise has
    settled, or [None] while it is still pending. The extension imports
    the formatter of the second revision. *)
Definition awaitFormat (document : TextDocument) (range : Range)
    (evs : list Event) : State -> option Outcome * State :=
  fun s =>
    match FormatterV2.format env document range s with
    | (Done o, s1) => (Some o, s1)
    | (Pending c, s1) =>
        let '(c', s2) := FormatterV2.runEvents env c evs s1 in
        (settled c', s2)
    end.

(** The [try] block of the range-formatting provider and of the command,
    once [format] has settled. *)
Definition replyTo (range : Range) (o : Outcome) : Reply :=
  match o with
  | Resolved None => mkReply None None
  | Resolved (Some res) => mkReply (Some [mkTextEdit range res]) None
  | Rejected e => mkReply None (Some e)
  end.

(** The [try] block of the on-type provider, which also looks at the
    cancellation token. *)
Definition replyOnType (range : Range) (isCancellationRequested : bool)
    (o : Outcome) : Reply :=
  match o with
  | Resolved None => mkReply None None
  | Resolved (Some res) =>
      if isCancellationRequested then mkReply None None
      else mkReply (Some [mkTextEdit range res]) None
  | Rejected e => mkReply None (Some e)
  end.

(** [provideDocumentRangeFormattingEdits]; [None] while its promise is
    pending. *)
Definition provideDocumentRangeFormattingEdits (document : TextDocument)
    (range : Range) (evs : list Event) (s : State)
  : Res (option Reply * State) :=
  let? range := rangeFormattingRange document range in
  let '(o, s') := awaitFormat document range evs s in
  Ok (replyTo range <$> o, s').

(** [provideOnTypeFormattingEdits]; the range is computed outside the
    [try] block, so what [lineAt] throws leaves the provider. *)
Definition provideOnTypeFormattingEdits (document : TextDocument)
    (position : Position) (isCancellationRequested : bool)
    (evs : list Event) (s : State) : Res (option Reply * State) :=
  let? range := onTypeFormattingRange document position in
  let '(o, s') := awaitFormat document range evs s in
  Ok (replyOnType range isCancellationRequested <$> o, s').

(** The command [perltidy-more.tidy]; [editor] is the active text editor
    with its document and selection, if there is one. *)
Definition tidy (editor : option (TextDocument * Range))
    (evs : list Event) (s : State) : Res (option Reply * State) :=
  match editor with
  | None => Ok (Some (mkReply None None), s)
  | Some (document, selection) =>
      let? range := get_range document None (Some selection) in
      let '(o, s') := awaitFormat document range evs s in
      Ok (replyTo range <$> o, s')
  end.

End WithEnv.
End Extension.

(** ** More vocabulary *)

Definition isSpawn (e : Effect) : bool :=
  match e with
  | Spawn _ _ _ _ => true
  | _ => false
  end.

(** Every process started in this stretch of the log got the documented
    arguments. *)
Definition spawnsAsDocumented (env : Env) (l : list Effect) : Prop :=
  forall pid file args cwd,
    In (Spawn pid file args cwd) l ->
    args = expectedArgs (profileSetting env).

(** The log grows, and what is added spawns as documented. *)
Definition grows (env : Env) (s s' : State) : Prop :=
  exists added, log s' = log s ++ added /\ spawnsAsDocumented env added.

(** The whole text of a document. *)
Definition fullText (document : TextDocument) : string :=
  Js.join (eol document) (lines document).

(** The text of a range that lies inside the document with its ends in
    order: what [getText] reads once it has validated the range. *)
Definition sliceText (document : TextDocument) (r : Range) : string :=
  if isEmpty r then ""
  else if isSingleLine r then
    Js.substring (character (start r)) (character (end_ r))
                 (lineText document (line (start r)))
  else
    Js.join (eol document)
      (Js.substring (character (start r))
                    (Js.length (lineText document (line (start r))))
                    (lineText document (line (start r)))
       :: take (line (end_ r) - line (start r) - 1)
               (drop (S (line (start r))) (lines document))
       ++ [Js.substring 0 (character (end_ r))
                        (lineText document (line (end_ r)))]).

(** The white space in front of a position, on its line. *)
Definition indentBefore (document : TextDocument) (p : Position) : string :=
  String.substring 0
    (character p `min` String.length (lineText document (line p)))
    (lineText document (line p)).

(** ** Sample surroundings and documents *)

Module Sample.

Definition folder : WorkspaceFolder :=
  mkWorkspaceFolder (mkUri "file" "/ws" "/ws") "ws" 0.

Definition fileUri : Uri := mkUri "file" "/ws/lib/Foo.pm" "/ws/lib/Foo.pm".

Definition strayUri : Uri := mkUri "file" "/tmp/stray.pl" "/tmp/stray.pl".

Definition posixIsAbsolute (p : string) : bool :=
  match p with
  | String "/" _ => true
  | _ => false
  end.

Definition lookup (u : Uri) : option WorkspaceFolder :=
  if String.prefix "/ws/" (path u) then Some folder else None.

(** Joining two paths that need no normalising. *)
Definition posixJoin (a b : string) : string := a +:+ "/" +:+ b.

Definition posixJoin_nonempty (a b : string) : posixJoin a b <> "" :=
  ltac:(destruct a; discriminate).

(** The 8-bit alphabet cannot hold a code unit above 255; such a code
    unit (the replacement character U+FFFD, which [toString] puts for
    ill-formed bytes, among them) is shown as this character. *)
Definition SUB : ascii := ascii_of_nat 26.

Definition isContinuation (c : ascii) : bool :=
  (128 <=? nat_of_ascii c) && (nat_of_ascii c <=? 191).

(** [Buffer.toString] for UTF-8, seen through the 8-bit alphabet: an
    ASCII byte is itself, a well-formed two-byte sequence below U+0100
    is its code unit, any other well-formed sequence is one [SUB] per
    code unit, and every byte that starts no well-formed sequence is one
    [SUB] (Node puts one replacement character for a whole truncated
    sequence; the samples have none of three or four bytes). *)
Fixpoint utf8ToString (bytes : Buffer) : string :=
  match bytes with
  | EmptyString => ""
  | String b rest =>
      let n := nat_of_ascii b in
      if n <? 128 then String b (utf8ToString rest)
      else
        match rest with
        | String c1 rest1 =>
            if (194 <=? n) && (n <=? 223) && isContinuation c1 then
              String (if n <=? 195
                      then ascii_of_nat ((n - 192) * 64 + (nat_of_ascii c1 - 128))
                      else SUB)
                     (utf8ToString rest1)
            else
              match rest1 with
              | String c2 rest2 =>
                  if (224 <=? n) && (n <=? 239)
                     && isContinuation c1 && isContinuation c2 then
                    String SUB (utf8ToString rest2)
                  else
                    match rest2 with
                    | String c3 rest3 =>
                        if (240 <=? n) && (n <=? 244) && isContinuation c1
                           && isContinuation c2 && isContinuation c3 then
                          String SUB (String SUB (utf8ToString rest3))
                        else String SUB (utf8ToString rest)
                    | EmptyString => String SUB (utf8ToString rest)
                    end
              | EmptyString => String SUB (utf8ToString rest)
              end
        | EmptyString => String SUB ""
        end
  end.

(** [perltidy] found on the search path, no profile, no auto-disable,
    nothing on disk. *)
Definition plain : Env :=
  mkEnv "perltidy" "" false (fun _ => false) posixIsAbsolute
        posixJoin lookup (fun _ _ => None) utf8ToString posixJoin_nonempty.

(** As [plain], with a profile configured. *)
Definition profiled : Env :=
  mkEnv "perltidy" ".perltidyrc.strict" false (fun _ => false)
        posixIsAbsolute posixJoin lookup
        (fun _ _ => None) utf8ToString posixJoin_nonempty.

(** Auto-disable switched on and no [.perltidyrc] in the workspace. *)
Definition autoDisabled : Env :=
  mkEnv "perltidy" "" true (fun _ => false) posixIsAbsolute
        posixJoin lookup (fun _ _ => None) utf8ToString posixJoin_nonempty.

Definition fresh : State := mkState ∅ 0 [].

Definition newline : string := String (ascii_of_nat 10) EmptyString.

Definition script : TextDocument :=
  mkDocument fileUri newline
    ["use strict;"; "my @a = (1,"; "  [2], {"; "  }"; ")"].

Definition stray : TextDocument :=
  mkDocument strayUri newline ["print 1;"].

Definition blocks : TextDocument :=
  mkDocument fileUri newline
    ["  do {"; "return do {"; "  1"; "}"].

Definition brackets : TextDocument :=
  mkDocument fileUri newline
    ["my @a = (1,"; "  [2], {"; "  }"; ")"].

Definition statements : TextDocument :=
  mkDocument fileUri newline
    ["my $x = 1;"; "my $y = 2;"; "sub f {"; "  return $x;"; "}";
     "f(1, [2])"].

Definition twoEmptyLines : TextDocument :=
  mkDocument fileUri newline [""; ""].

Definition wholeFirstLine : Range :=
  mkRange (mkPosition 0 0) (mkPosition 0 8).

Definition nothing : Range :=
  mkRange (mkPosition 0 3) (mkPosition 0 3).

Definition lineBreak : Range :=
  mkRange (mkPosition 0 0) (mkPosition 1 0).

(** A virtual workspace: its folder is not on the local file system. *)
Definition remoteFolder : WorkspaceFolder :=
  mkWorkspaceFolder (mkUri "vscode-vfs" "/repo" "\repo") "repo" 1.

(** A wrapper script kept in the workspace. *)
Definition wrapped : Env :=
  mkEnv "script/tidy.pl" "" false
        (fun p => String.eqb p "/ws/script/tidy.pl") posixIsAbsolute
        posixJoin lookup (fun _ _ => None) utf8ToString posixJoin_nonempty.

(** As [plain], with an input stream that refuses every write. *)
Definition broken : Env :=
  mkEnv "perltidy" "" false (fun _ => false) posixIsAbsolute
        posixJoin lookup
        (fun _ _ => Some (OtherError "write EPIPE"))
        utf8ToString posixJoin_nonempty.

Definition firstCall : Call :=
  mkCall (Some folder) 0 "perltidy" "" "" None.

(** The executable setting left at its fallback, the empty string, and
    nothing on disk to resolve it to. *)
Definition unset : Env :=
  mkEnv "" "" false (fun _ => false) posixIsAbsolute
        posixJoin lookup (fun _ _ => None) utf8ToString posixJoin_nonempty.

(** The two bytes of one character, as they arrive when a chunk ends
    between them. *)
Definition leadByte : Buffer := String (ascii_of_nat 195) "".

Definition tailByte : Buffer := String (ascii_of_nat 169) "".

(** The JavaScript string of the one character U+00E9, whose UTF-8
    bytes are [leadByte] and [tailByte]. *)
Definition eAcute : string := String (ascii_of_nat 233) "".

End Sample.

(** * Properties *)

(** ** Strings *)

Lemma lastIndexOf_lower (s : string) (c : ascii) : (-1 <= Js.lastIndexOf s c)%Z.
Proof.
  induction s as [|a s IH]; simpl; [lia|].
  destruct (Z.leb_spec 0 (Js.lastIndexOf s c)); [lia|].
  destruct (Ascii.eqb a c); lia.
Qed.

Lemma lastIndexOf_found (s : string) (c : ascii) :
  (0 <= Js.lastIndexOf s c)%Z <-> contains c s.
Proof.
  induction s as [|a s IH]; simpl.
  - split; [lia|]. intros [i Hi]. destruct i; discriminate.
  - destruct (Z.leb_spec 0 (Js.lastIndexOf s c)) as [Hr|Hr].
    + split; [|lia]. intros _. apply IH in Hr as [i Hi]. by exists (S i).
    + destruct (Ascii.eqb_spec a c) as [->|Hne].
      * split; [|lia]. intros _. by exists 0.
      * split; [lia|]. intros [[|i] Hi]; simpl in Hi.
        -- congruence.
        -- assert (0 <= Js.lastIndexOf s c)%Z by (apply IH; by exists i). lia.
Qed.

Lemma lastIndexOf_is_last (s : string) (c : ascii) (i : nat) :
  Js.lastIndexOf s c = Z.of_nat i ->
  String.get i s = Some c /\
  forall j, i < j -> String.get j s <> Some c.
Proof.
  revert i. induction s as [|a s IH]; simpl; intros i Hi.
  - lia.
  - destruct (Z.leb_spec 0 (Js.lastIndexOf s c)) as [Hr|Hr].
    + destruct i as [|i]; [lia|].
      destruct (IH i) as [Hget Hlast]; [lia|].
      split; [done|]. intros [|j] Hj; [lia|]. simpl. apply Hlast. lia.
    + destruct (Ascii.eqb_spec a c) as [->|Hne]; [|lia].
      destruct i as [|i]; [|lia]. split; [done|].
      intros [|j] Hj; [lia|]. simpl. intros Hc.
      assert (0 <= Js.lastIndexOf s c)%Z by (apply lastIndexOf_found; by exists j).
      lia.
Qed.

Lemma get_Some_lt (s : string) (i : nat) (c : ascii) :
  String.get i s = Some c -> i < String.length s.
Proof.
  revert i. induction s as [|a s IH]; intros [|i] Hi; simpl in *;
    try discriminate; [lia|]. apply IH in Hi. lia.
Qed.

Lemma matchBlank_prefix (s : string) (k : nat) :
  Js.matchBlank (String.substring 0 k s) = true <->
  forall i c, i < k -> String.get i s = Some c -> Js.isSpace c = true.
Proof.
  revert k. induction s as [|a s IH]; intros k.
  - destruct k; simpl; split; try done; intros _ [|i] c ?; discriminate.
  - destruct k as [|k]; simpl.
    + split; [|done]. intros _ i c Hi. lia.
    + rewrite andb_true_iff, IH. split.
      * intros [Ha Hs] [|i] c Hi Hget; simpl in Hget.
        -- by inversion Hget; subst.
        -- apply (Hs i); [lia|done].
      * intros H. split.
        -- apply (H 0); [lia|done].
        -- intros i c Hi Hget. apply (H (S i)); [lia|done].
Qed.

Lemma substring_js_prefix (s : string) (k : nat) :
  k <= String.length s -> Js.substring 0 k s = String.substring 0 k s.
Proof.
  intros Hk. unfold Js.substring, Js.length.
  by replace (0 `min` String.length s) with 0 by lia;
     replace (k `min` String.length s) with k by lia;
     replace (0 `min` k) with 0 by lia;
     replace (0 `max` k - 0) with k by lia.
Qed.

(** ** Positions and ranges *)

Lemma newRange_ordered (a b : Position) :
  isBeforeOrEqual a b = true -> newRange a b = mkRange a b.
Proof.
  destruct a as [la ca], b as [lb cb].
  unfold isBeforeOrEqual, newRange, isBefore; simpl. intros H.
  destruct (Nat.ltb_spec la lb); simpl; [done|].
  destruct (Nat.eqb_spec la lb); simpl in *; [|done].
  destruct (Nat.ltb_spec ca cb); [done|].
  apply Nat.leb_le in H. subst. by replace cb with ca by lia.
Qed.

Lemma lineStart_before (p : Position) :
  isBeforeOrEqual (mkPosition (line p) 0) p = true.
Proof.
  unfold isBeforeOrEqual; simpl. rewrite Nat.eqb_refl. apply orb_true_r.
Qed.

Lemma isBeforeOrEqual_trans (a b c : Position) :
  isBeforeOrEqual a b = true -> isBeforeOrEqual b c = true ->
  isBeforeOrEqual a c = true.
Proof.
  unfold isBeforeOrEqual.
  rewrite !orb_true_iff, !andb_true_iff, !Nat.ltb_lt, !Nat.eqb_eq, !Nat.leb_le.
  lia.
Qed.

Lemma lineText_outside (document : TextDocument) (n : nat) :
  lineCount document <= n -> lineText document n = "".
Proof.
  intros H. unfold lineText. by rewrite lookup_ge_None_2.
Qed.

(** The text between the start of a line and a column of it: the prefix
    of the line, cut at the length of the line. *)
Lemma getText_indent (document : TextDocument) (p : Position) :
  getText document (newRange (mkPosition (line p) 0) p) =
  String.substring 0 (character p `min` String.length (lineText document (line p)))
                   (lineText document (line p)).
Proof.
  rewrite newRange_ordered by apply lineStart_before.
  destruct p as [l c]. unfold getText, validateRange, validatePosition; simpl.
  destruct (Nat.eqb_spec (lineCount document) 0) as [H0|H0].
  - rewrite (lineText_outside document l) by lia. simpl.
    by destruct (c `min` 0).
  - destruct (Nat.leb_spec (lineCount document) l) as [Hl|Hl].
    + rewrite (lineText_outside _ l) by lia. simpl.
      replace (c `min` 0) with 0 by lia. simpl.
      set (q := mkPosition _ _).
      assert (isBefore q q = false) as Hq.
      { unfold isBefore. rewrite !Nat.ltb_irrefl, Nat.eqb_refl. done. }
      unfold newRange. rewrite Hq. unfold isEmpty, isEqual; simpl.
      by rewrite !Nat.eqb_refl.
    + unfold Js.length. simpl.
      set (k := c `min` String.length (lineText document l)).
      rewrite newRange_ordered.
      2:{ unfold isBeforeOrEqual; simpl. rewrite Nat.eqb_refl.
          apply orb_true_r. }
      unfold isEmpty, isEqual, isSingleLine; simpl. rewrite Nat.eqb_refl. simpl.
      destruct k as [|k'] eqn:Hk.
      * by destruct (lineText document l).
      * apply substring_js_prefix. lia.
Qed.

Lemma matchBlank_indent (document : TextDocument) (p : Position) :
  Js.matchBlank (getText document (newRange (mkPosition (line p) 0) p)) = true
  <-> indentOnly document p.
Proof.
  rewrite getText_indent, matchBlank_prefix. unfold indentOnly. split.
  - intros H i c Hi Hget. apply (H i); [|done].
    apply get_Some_lt in Hget. lia.
  - intros H i c Hi Hget. apply (H i); [lia|done].
Qed.

(** ** The backward scan *)

Lemma scanBack_spec (document : TextDocument) (n : nat) :
  n <= lineCount document ->
  exists p, scanBack document n = Ok p /\
    ((exists k, k < n /\ hasSemicolon document k /\
                (forall j, k < j < n -> ~ hasSemicolon document j) /\
                p = mkPosition (k + 1) 0)
     \/ ((forall j, j < n -> ~ hasSemicolon document j) /\ p = mkPosition 0 0)).
Proof.
  induction n as [|n IH]; intros Hn; simpl.
  - eexists; split; [done|]. right. split; [|done]. intros j Hj. lia.
  - unfold lineAt.
    destruct (lines document !! n) as [text|] eqn:Hline.
    2:{ apply lookup_ge_None in Hline. unfold lineCount in Hn. lia. }
    simpl. destruct (Z.leb_spec 0 (Js.lastIndexOf text ";")) as [Hfound|Hnone].
    + eexists; split; [done|]. left. exists n. split; [lia|]. split.
      * exists text. split; [done|]. by apply lastIndexOf_found.
      * split; [|done]. intros j Hj. lia.
    + destruct IH as (p & Hp & Hcases); [lia|]. exists p. split; [done|].
      assert (~ hasSemicolon document n) as Hn'.
      { intros (text' & Hl & Hc). rewrite Hline in Hl. inversion Hl; subst.
        apply lastIndexOf_found in Hc. lia. }
      destruct Hcases as [(k & Hk & Hsemi & Hlast & ->)|[Hall ->]].
      * left. exists k. split; [lia|]. split; [done|]. split; [|done].
        intros j Hj. destruct (decide (j = n)) as [->|]; [done|].
        apply Hlast. lia.
      * right. split; [|done]. intros j Hj.
        destruct (decide (j = n)) as [->|]; [done|]. apply Hall. lia.
Qed.

(** C4: for a trigger position inside the document, the on-type range
    ends at the trigger position and starts at column 0 of the line after
    the last line, before the trigger line, that contains a semicolon;
    it starts at (0,0) when no line before the trigger line contains
    one. *)
Theorem onType_range_after_last_terminator
    (document : TextDocument) (position : Position) :
  inDocument document position ->
  exists resolved,
    onTypeFormattingRange document position = Ok resolved /\
    end_ resolved = position /\
    ((exists k, k < line position /\ hasSemicolon document k /\
                (forall j, k < j < line position -> ~ hasSemicolon document j) /\
                start resolved = mkPosition (k + 1) 0)
     \/ ((forall j, j < line position -> ~ hasSemicolon document j) /\
         start resolved = mkPosition 0 0)).
Proof.
  intros Hin. unfold inDocument in Hin.
  destruct (scanBack_spec document (line position)) as (p & Hp & Hcases); [lia|].
  unfold onTypeFormattingRange. rewrite Hp. simpl.
  assert (isBeforeOrEqual p position = true) as Hle.
  { unfold isBeforeOrEqual.
    rewrite orb_true_iff, andb_true_iff, Nat.ltb_lt, Nat.eqb_eq, Nat.leb_le.
    destruct Hcases as [(k & Hk & _ & _ & ->)|[_ ->]]; simpl.
    all: lia. }
  rewrite (newRange_ordered _ _ Hle). eexists. split; [done|]. split; [done|].
  simpl. exact Hcases.
Qed.

Lemma onType_range_after_last_terminator_witness :
  inDocument Sample.script (mkPosition 4 1) /\
  exists resolved,
    onTypeFormattingRange Sample.script (mkPosition 4 1) = Ok resolved /\
    end_ resolved = mkPosition 4 1 /\
    ((exists k, k < 4 /\ hasSemicolon Sample.script k /\
                (forall j, k < j < 4 -> ~ hasSemicolon Sample.script j) /\
                start resolved = mkPosition (k + 1) 0)
     \/ ((forall j, j < 4 -> ~ hasSemicolon Sample.script j) /\
         start resolved = mkPosition 0 0)).
Proof.
  assert (inDocument Sample.script (mkPosition 4 1)) as H
    by (unfold inDocument, lineCount; simpl; lia).
  split; [exact H|].
  exact (onType_range_after_last_terminator Sample.script (mkPosition 4 1) H).
Defined.

(** C9: when no line before the trigger line contains a semicolon, the
    on-type range is exactly from (0,0) to the trigger position, whatever
    other characters (closing braces, parentheses or brackets included)
    the earlier lines contain. *)
Theorem onType_scan_only_semicolon
    (document : TextDocument) (position : Position) :
  inDocument document position ->
  (forall j, j < line position -> ~ hasSemicolon document j) ->
  onTypeFormattingRange document position =
  Ok (mkRange (mkPosition 0 0) position).
Proof.
  intros Hin Hnone. unfold inDocument in Hin.
  destruct (scanBack_spec document (line position)) as (p & Hp & Hcases); [lia|].
  unfold onTypeFormattingRange. rewrite Hp. simpl.
  destruct Hcases as [(k & Hk & Hsemi & _)|[_ ->]].
  - by destruct (Hnone k Hk).
  - rewrite newRange_ordered; [done|].
    unfold isBeforeOrEqual; simpl. by destruct (line position), (character position).
Qed.

(** The example of the on-type scan: the last semicolon before the
    trigger line 5 is on line 3, so the range starts at line 4. *)
Example onType_statements :
  onTypeFormattingRange Sample.statements (mkPosition 5 9) =
  Ok (mkRange (mkPosition 4 0) (mkPosition 5 9)).
Proof. reflexivity. Qed.

(** Outside the document the host refuses the line, and the provider
    throws before it reaches the formatter. *)
Example onType_outside_document :
  onTypeFormattingRange Sample.statements (mkPosition 9 0) =
  Throw (OtherError "Illegal value for `line`").
Proof. reflexivity. Qed.

Lemma brackets_no_semicolon (j : nat) : ~ hasSemicolon Sample.brackets j.
Proof.
  intros (text & Hline & Hc). apply lastIndexOf_found in Hc.
  destruct j as [|[|[|[|j]]]]; simpl in Hline; inversion Hline; subst;
    vm_compute in Hc; by apply Hc.
Qed.

Lemma onType_scan_only_semicolon_witness :
  contains "]" (lineText Sample.brackets 1) /\
  contains "}" (lineText Sample.brackets 2) /\
  onTypeFormattingRange Sample.brackets (mkPosition 3 1) =
  Ok (mkRange (mkPosition 0 0) (mkPosition 3 1)).
Proof.
  split; [by exists 4|]. split; [by exists 2|].
  apply (onType_scan_only_semicolon Sample.brackets (mkPosition 3 1)).
  - unfold inDocument, lineCount; simpl; lia.
  - intros j _. apply brackets_no_semicolon.
Defined.

(** ** The range-formatting action *)

Lemma rangeFormattingRange_blank (document : TextDocument) (range : Range) :
  wfRange range ->
  indentOnly document (start range) ->
  rangeFormattingRange document range =
  Ok (mkRange (mkPosition (line (start range)) 0) (end_ range)).
Proof.
  intros Hwf Hblank. unfold rangeFormattingRange.
  apply matchBlank_indent in Hblank. rewrite Hblank. simpl.
  rewrite newRange_ordered; [done|].
  eapply isBeforeOrEqual_trans; [apply lineStart_before|exact Hwf].
Qed.

Lemma rangeFormattingRange_text (document : TextDocument) (range : Range) :
  ~ indentOnly document (start range) ->
  rangeFormattingRange document range = Ok range.
Proof.
  intros Hblank. unfold rangeFormattingRange.
  destruct (Js.matchBlank _) eqn:Hm; [|done].
  by apply matchBlank_indent in Hm.
Qed.

Lemma indentOnly_dec (document : TextDocument) (p : Position) :
  indentOnly document p \/ ~ indentOnly document p.
Proof.
  destruct (Js.matchBlank
              (getText document (newRange (mkPosition (line p) 0) p))) eqn:Hm.
  - left. by apply matchBlank_indent.
  - right. intros H. apply matchBlank_indent in H. congruence.
Qed.

Lemma indentOnly_column0 (document : TextDocument) (p : Position) :
  character p = 0 -> indentOnly document p.
Proof. intros H i c Hi. lia. Qed.

(** C5: the range-formatting action keeps the end of the candidate range;
    it moves the start to column 0 of its line when every character
    between the start of the line and the candidate start is white space,
    and leaves the start where it is otherwise; so the resolved start is
    column 0 of the line exactly in the white-space case. *)
Theorem rangeFormatting_start_expansion
    (document : TextDocument) (range : Range) :
  wfRange range ->
  exists resolved,
    rangeFormattingRange document range = Ok resolved /\
    end_ resolved = end_ range /\
    (indentOnly document (start range) ->
     start resolved = mkPosition (line (start range)) 0) /\
    (~ indentOnly document (start range) -> start resolved = start range) /\
    (start resolved = mkPosition (line (start range)) 0 <->
     indentOnly document (start range)).
Proof.
  intros Hwf. destruct (indentOnly_dec document (start range)) as [Hb|Hb].
  - rewrite (rangeFormattingRange_blank _ _ Hwf Hb). eexists. split; [done|].
    simpl. repeat split; done.
  - rewrite (rangeFormattingRange_text _ _ Hb). eexists. split; [done|].
    repeat split; try done.
    intros Hs. destruct Hb. apply indentOnly_column0. by rewrite Hs.
Qed.

Lemma rangeFormatting_start_expansion_witness :
  wfRange (mkRange (mkPosition 0 2) (mkPosition 3 1)) /\
  exists resolved,
    rangeFormattingRange Sample.blocks
      (mkRange (mkPosition 0 2) (mkPosition 3 1)) = Ok resolved /\
    end_ resolved = mkPosition 3 1 /\
    (indentOnly Sample.blocks (mkPosition 0 2) ->
     start resolved = mkPosition 0 0) /\
    (~ indentOnly Sample.blocks (mkPosition 0 2) ->
     start resolved = mkPosition 0 2) /\
    (start resolved = mkPosition 0 0 <-> indentOnly Sample.blocks (mkPosition 0 2)).
Proof.
  assert (wfRange (mkRange (mkPosition 0 2) (mkPosition 3 1))) as H
    by reflexivity.
  split; [exact H|].
  exact (rangeFormatting_start_expansion Sample.blocks
           (mkRange (mkPosition 0 2) (mkPosition 3 1)) H).
Defined.

(** The two examples of the range-expansion heuristic. *)
Example expansion_indented :
  rangeFormattingRange Sample.blocks (mkRange (mkPosition 0 2) (mkPosition 3 1))
  = Ok (mkRange (mkPosition 0 0) (mkPosition 3 1)).
Proof. reflexivity. Qed.

Example expansion_after_text :
  rangeFormattingRange Sample.blocks (mkRange (mkPosition 1 7) (mkPosition 3 1))
  = Ok (mkRange (mkPosition 1 7) (mkPosition 3 1)).
Proof. reflexivity. Qed.

(** ** Starting a process *)

Lemma truthy_nonempty (s : string) : Js.truthy s = true <-> s <> "".
Proof.
  unfold Js.truthy. destruct (String.eqb_spec s ""); simpl; split; congruence.
Qed.

Lemma empty_text_test (text : string) :
  negb (Js.truthy text) || (Js.length text =? 0) = true <-> text = "".
Proof.
  destruct text; simpl; split; congruence.
Qed.

Lemma createWorker_spec (env : Env) (workspace : WorkspaceFolder) (s : State) :
  createWorker env workspace s =
  (if String.eqb (spawnTarget env workspace) ""
   then Throw emptyFileError
   else Ok (mkHandle (spawned s) (spawnTarget env workspace)),
   mkState (workerCacheMap s)
           (if String.eqb (spawnTarget env workspace) ""
            then spawned s else S (spawned s))
           (log s ++ [Spawn (spawned s) (spawnTarget env workspace)
                            (expectedArgs (profileSetting env))
                            (spawnCwd env workspace)])).
Proof.
  unfold createWorker, expectedArgs, spawnTarget, spawnCwd.
  assert ((if Js.truthy (profileSetting env)
           then ["--standard-output"; "-no-add-terminal-newline"] ++
                ["--profile=" +:+ profileSetting env]
           else ["--standard-output"; "-no-add-terminal-newline"]) =
          (if decide (profileSetting env = "")
           then ["--standard-output"; "-no-add-terminal-newline"]
           else ["--standard-output"; "-no-add-terminal-newline";
                 "--profile=" +:+ profileSetting env])) as ->.
  { destruct (decide (profileSetting env = "")) as [->|Hne]; [done|].
    apply truthy_nonempty in Hne. by rewrite Hne. }
  destruct (negb (isAbsolute env (executableSetting env)));
    [destruct (existsSync env _)|];
    destruct (String.eqb (scheme (uri workspace)) "file"); simpl;
    unfold bind, spawn, ret;
    by destruct (String.eqb _ "").
Qed.

Lemma createWorker_ok (env : Env) (workspace : WorkspaceFolder) (s : State) :
  spawnTarget env workspace <> "" ->
  createWorker env workspace s =
  (Ok (mkHandle (spawned s) (spawnTarget env workspace)),
   mkState (workerCacheMap s) (S (spawned s))
           (log s ++ [Spawn (spawned s) (spawnTarget env workspace)
                            (expectedArgs (profileSetting env))
                            (spawnCwd env workspace)])).
Proof.
  intros Hne. rewrite createWorker_spec.
  by destruct (String.eqb_spec (spawnTarget env workspace) "").
Qed.

Lemma createWorker_throws (env : Env) (workspace : WorkspaceFolder) (s : State) :
  spawnTarget env workspace = "" ->
  createWorker env workspace s =
  (Throw emptyFileError,
   mkState (workerCacheMap s) (spawned s)
           (log s ++ [Spawn (spawned s) ""
                            (expectedArgs (profileSetting env))
                            (spawnCwd env workspace)])).
Proof. intros He. rewrite createWorker_spec, He. done. Qed.

(** C8: [createWorker], the only place that spawns, starts exactly one
    process, whose argument list is the two fixed options followed by
    the profile option if and only if the configured profile is not
    empty. *)
Theorem createWorker_arguments
    (env : Env) (workspace : WorkspaceFolder) (s : State) :
  exists pid file args cwd,
    log (snd (createWorker env workspace s)) =
      log s ++ [Spawn pid file args cwd] /\
    (profileSetting env <> "" ->
       args = ["--standard-output"; "-no-add-terminal-newline";
               "--profile=" +:+ profileSetting env]) /\
    (profileSetting env = "" ->
       args = ["--standard-output"; "-no-add-terminal-newline"]) /\
    (In ("--profile=" +:+ profileSetting env) args <->
       profileSetting env <> "").
Proof.
  rewrite createWorker_spec.
  exists (spawned s), (spawnTarget env workspace),
         (expectedArgs (profileSetting env)), (spawnCwd env workspace).
  split; [done|]. unfold expectedArgs.
  destruct (decide (profileSetting env = "")) as [Hp|Hp].
  - repeat split; try done. rewrite Hp. simpl.
    intros [H|[H|[]]]; discriminate.
  - repeat split; try done. intros _. simpl. tauto.
Qed.

Example createWorker_plain :
  log (snd (createWorker Sample.plain Sample.folder Sample.fresh)) =
  [Spawn 0 "perltidy" ["--standard-output"; "-no-add-terminal-newline"] "/ws"].
Proof. reflexivity. Qed.

Example createWorker_profiled :
  log (snd (createWorker Sample.profiled Sample.folder Sample.fresh)) =
  [Spawn 0 "perltidy"
         ["--standard-output"; "-no-add-terminal-newline";
          "--profile=.perltidyrc.strict"] "/ws"].
Proof. reflexivity. Qed.

(** ** Standing by *)

Section StandBy.
Context (env : Env).

Lemma isFormatEnabled_false (workspace : WorkspaceFolder) :
  FormatterV2.isFormatEnabled env workspace = false <->
  autoDisableSetting env = true /\
  existsSync env (join env (path (uri workspace)) ".perltidyrc") = false.
Proof.
  unfold FormatterV2.isFormatEnabled.
  destruct (autoDisableSetting env), (existsSync env _); simpl;
    split; try done; by intros [? ?].
Qed.

Lemma standBy_cached (workspace : WorkspaceFolder) (h : Handle) (s : State) :
  FormatterV2.isFormatEnabled env workspace = true ->
  workerCacheMap s !! workspace = Some h ->
  FormatterV2.standBy env (Some workspace) s = (Ok h, s).
Proof.
  intros Hen Hc. unfold FormatterV2.standBy. rewrite Hen. simpl.
  unfold bind, cacheGet. by rewrite Hc.
Qed.

Lemma standBy_missing (workspace : WorkspaceFolder) (s : State) :
  FormatterV2.isFormatEnabled env workspace = true ->
  workerCacheMap s !! workspace = None ->
  spawnTarget env workspace <> "" ->
  exists file cwd,
    FormatterV2.standBy env (Some workspace) s =
    (Ok (mkHandle (spawned s) file),
     mkState (<[workspace := mkHandle (spawned s) file]> (workerCacheMap s))
             (S (spawned s))
             (log s ++ [Spawn (spawned s) file
                              (expectedArgs (profileSetting env)) cwd;
                        CacheSet workspace (spawned s)])).
Proof.
  intros Hen Hc Ht. unfold FormatterV2.standBy. rewrite Hen. simpl.
  unfold bind at 1. unfold cacheGet. rewrite Hc.
  exists (spawnTarget env workspace), (spawnCwd env workspace).
  unfold bind. rewrite (createWorker_ok env workspace s Ht).
  unfold cacheSet, ret. simpl. by rewrite <- app_assoc.
Qed.

Lemma standBy_spawns (workspace : WorkspaceFolder) (s : State) :
  FormatterV2.isFormatEnabled env workspace = true ->
  workerCacheMap s !! workspace = None ->
  spawnTarget env workspace <> "" ->
  FormatterV2.standBy env (Some workspace) s =
  (Ok (mkHandle (spawned s) (spawnTarget env workspace)),
   mkState (<[workspace := mkHandle (spawned s) (spawnTarget env workspace)]>
              (workerCacheMap s))
           (S (spawned s))
           (log s ++ [Spawn (spawned s) (spawnTarget env workspace)
                            (expectedArgs (profileSetting env))
                            (spawnCwd env workspace);
                      CacheSet workspace (spawned s)])).
Proof.
  intros Hen Hc Ht. unfold FormatterV2.standBy. rewrite Hen. simpl.
  unfold bind at 1. unfold cacheGet. rewrite Hc.
  unfold bind. rewrite (createWorker_ok env workspace s Ht).
  unfold cacheSet, ret. simpl. by rewrite <- app_assoc.
Qed.

Lemma standBy_missing_throws (workspace : WorkspaceFolder) (s : State) :
  FormatterV2.isFormatEnabled env workspace = true ->
  workerCacheMap s !! workspace = None ->
  spawnTarget env workspace = "" ->
  FormatterV2.standBy env (Some workspace) s =
  (Throw emptyFileError,
   mkState (workerCacheMap s) (spawned s)
           (log s ++ [Spawn (spawned s) ""
                            (expectedArgs (profileSetting env))
                            (spawnCwd env workspace)])).
Proof.
  intros Hen Hc Ht. unfold FormatterV2.standBy. rewrite Hen. simpl.
  unfold bind at 1. unfold cacheGet. rewrite Hc.
  unfold bind. by rewrite (createWorker_throws env workspace s Ht).
Qed.

Lemma standBy_disabled (workspace : WorkspaceFolder) (s : State) :
  FormatterV2.isFormatEnabled env workspace = false ->
  FormatterV2.standBy env (Some workspace) s =
  (Throw (FormatError noWorkspaceMessage), s).
Proof. intros Hen. unfold FormatterV2.standBy. by rewrite Hen. Qed.

Lemma standBy_wf (workspace : option WorkspaceFolder) (s : State) :
  wfState s -> wfState (snd (FormatterV2.standBy env workspace s)).
Proof.
  intros Hwf. destruct workspace as [w|]; [|done].
  destruct (FormatterV2.isFormatEnabled env w) eqn:Hen.
  2:{ by rewrite standBy_disabled. }
  destruct (workerCacheMap s !! w) as [h|] eqn:Hc.
  - by rewrite (standBy_cached w h).
  - destruct (decide (spawnTarget env w = "")) as [Ht|Ht].
    { by rewrite (standBy_missing_throws w s Hen Hc Ht). }
    destruct (standBy_missing w s Hen Hc Ht) as (file & cwd & ->).
    unfold wfState. simpl.
    intros w' h'. rewrite lookup_insert. case_decide.
    + intros [= <-]. simpl. lia.
    + intros H'. apply Hwf in H'. simpl. lia.
Qed.

Lemma standBy_handle_spawned
    (workspace : option WorkspaceFolder) (s s' : State) (h : Handle) :
  wfState s ->
  FormatterV2.standBy env workspace s = (Ok h, s') ->
  exists w, workspace = Some w /\
            FormatterV2.isFormatEnabled env w = true /\
            worker h < spawned s' /\
            spawned s <= spawned s'.
Proof.
  intros Hwf Hs. destruct workspace as [w|]; [|done]. exists w.
  destruct (FormatterV2.isFormatEnabled env w) eqn:Hen.
  2:{ by rewrite standBy_disabled in Hs. }
  destruct (workerCacheMap s !! w) as [h0|] eqn:Hc.
  - rewrite (standBy_cached w h0) in Hs by done. inversion Hs; subst.
    repeat split; try done. by apply (Hwf w).
  - destruct (decide (spawnTarget env w = "")) as [Ht|Ht].
    { by rewrite (standBy_missing_throws w s Hen Hc Ht) in Hs. }
    destruct (standBy_missing w s Hen Hc Ht) as (file & cwd & Hm).
    rewrite Hm in Hs. inversion Hs; subst. simpl. repeat split; try done; lia.
Qed.

End StandBy.

(** C10: called without a workspace, or for a workspace where
    auto-disable is on and [.perltidyrc] is missing, [standBy] throws and
    returns the state it was given: no process is spawned and the cache
    holds exactly the entries it held. *)
Theorem standBy_refusal_changes_nothing
    (env : Env) (workspace : option WorkspaceFolder) (s : State) :
  workspace = None \/
  (exists w, workspace = Some w /\
             autoDisableSetting env = true /\
             existsSync env (join env (path (uri w)) ".perltidyrc") = false) ->
  exists e s',
    FormatterV2.standBy env workspace s = (Throw e, s') /\
    e = FormatError noWorkspaceMessage /\
    log s' = log s /\
    spawned s' = spawned s /\
    workerCacheMap s' = workerCacheMap s.
Proof.
  intros [->|(w & -> & Hauto & Hrc)].
  - by eexists _, _.
  - rewrite standBy_disabled; [by eexists _, _|].
    by apply isFormatEnabled_false.
Qed.

Lemma standBy_refusal_changes_nothing_witness :
  exists e s',
    FormatterV2.standBy Sample.autoDisabled (Some Sample.folder) Sample.fresh
      = (Throw e, s') /\
    e = FormatError noWorkspaceMessage /\
    log s' = log Sample.fresh /\
    spawned s' = spawned Sample.fresh /\
    workerCacheMap s' = workerCacheMap Sample.fresh.
Proof.
  apply (standBy_refusal_changes_nothing Sample.autoDisabled
           (Some Sample.folder) Sample.fresh).
  right. exists Sample.folder. repeat split; reflexivity.
Defined.

(** ** [format]: the outcomes that need no process *)

Section FormatEarly.
Context (env : Env).

Lemma formatV1_nonempty (document : TextDocument) (range : Range) (s : State) :
  getText document range <> "" ->
  FormatterV1.format env document range s =
  match getWorkspaceFolder env (documentUri document) with
  | None => (Done (Rejected (FormatError noWorkspaceMessage)), s)
  | Some currentWorkspace =>
      if autoDisableSetting env
         && negb (existsSync env
                    (join env (path (uri currentWorkspace)) ".perltidyrc"))
      then (Done (Resolved None), s)
      else
        match createWorker env currentWorkspace s with
        | (Throw e, s1) => (Done (Rejected e), s1)
        | (Ok h, s1) =>
            match stdinWriteEnd env (worker h) (getText document range) s1 with
            | (Ok _, s2) =>
                (Pending (mkCall (Some currentWorkspace) (worker h)
                                 (executable h) "" "" None), s2)
            | (Throw error, s2) => (Done (Rejected error), s2)
            end
        end
  end.
Proof.
  intros Hne. unfold FormatterV1.format.
  destruct (negb _ || _) eqn:Ht; [|done].
  by apply empty_text_test in Ht.
Qed.

Lemma formatV2_nonempty (document : TextDocument) (range : Range) (s : State) :
  getText document range <> "" ->
  FormatterV2.format env document range s =
  match FormatterV2.standBy env
          (getWorkspaceFolder env (documentUri document)) s with
  | (Throw e, s1) => (Done (Rejected e), s1)
  | (Ok h, s1) =>
      match stdinWriteEnd env (worker h) (getText document range) s1 with
      | (Ok _, s2) =>
          (Pending (mkCall (getWorkspaceFolder env (documentUri document))
                           (worker h) (executable h) "" "" None), s2)
      | (Throw error, s2) =>
          (Done (Rejected error),
           FormatterV2.evict env
             (getWorkspaceFolder env (documentUri document)) s2)
      end
  end.
Proof.
  intros Hne. unfold FormatterV2.format.
  destruct (negb _ || _) eqn:Ht; [|done].
  by apply empty_text_test in Ht.
Qed.

End FormatEarly.

(** C3, as the code has it: when the text of the range is empty
    (zero-length), [format] resolves to the empty string and returns the
    state it was given, so no process is spawned or written to. Both
    revisions agree. *)
Theorem format_empty_text_resolves_empty
    (env : Env) (document : TextDocument) (range : Range) (s : State) :
  getText document range = "" ->
  FormatterV1.format env document range s = (Done (Resolved (Some "")), s) /\
  FormatterV2.format env document range s = (Done (Resolved (Some "")), s).
Proof.
  intros Ht. unfold FormatterV1.format, FormatterV2.format. by rewrite Ht.
Qed.

Lemma format_empty_text_resolves_empty_witness :
  FormatterV1.format Sample.plain Sample.script Sample.nothing Sample.fresh
    = (Done (Resolved (Some "")), Sample.fresh) /\
  FormatterV2.format Sample.plain Sample.script Sample.nothing Sample.fresh
    = (Done (Resolved (Some "")), Sample.fresh).
Proof.
  apply (format_empty_text_resolves_empty Sample.plain Sample.script
           Sample.nothing Sample.fresh).
  reflexivity.
Defined.

(** C3, as stated, fails: a range that covers one line break holds no
    printable character, yet its text is not empty, so both revisions
    spawn a process and write the line break to it instead of resolving
    to the empty string. *)
Lemma format_line_break_reaches_process :
  noPrintableContent (getText Sample.twoEmptyLines Sample.lineBreak) = true /\
  ~ (exists s',
       FormatterV2.format Sample.plain Sample.twoEmptyLines Sample.lineBreak
         Sample.fresh = (Done (Resolved (Some "")), s') /\
       log s' = log Sample.fresh) /\
  ~ (exists s',
       FormatterV1.format Sample.plain Sample.twoEmptyLines Sample.lineBreak
         Sample.fresh = (Done (Resolved (Some "")), s') /\
       log s' = log Sample.fresh) /\
  log (snd (FormatterV2.format Sample.plain Sample.twoEmptyLines
              Sample.lineBreak Sample.fresh)) =
  [Spawn 0 "perltidy" ["--standard-output"; "-no-add-terminal-newline"] "/ws";
   CacheSet Sample.folder 0;
   StdinWrite 0 Sample.newline; StdinEnd 0].
Proof.
  split; [reflexivity|]. split; [|split; [|reflexivity]].
  - intros (s' & H & _). vm_compute in H. discriminate.
  - intros (s' & H & _). vm_compute in H. discriminate.
Qed.

(** C2, as the code has it: for a document of no workspace whose text in
    the range is not empty, [format] rejects with a [FormatError] (the
    one error class the formatter constructs) whose message says that
    the file must belong to a workspace, and the state is the one it was
    given. Both revisions agree. *)
Theorem format_without_workspace_rejects
    (env : Env) (document : TextDocument) (range : Range) (s : State) :
  getText document range <> "" ->
  getWorkspaceFolder env (documentUri document) = None ->
  FormatterV1.format env document range s =
    (Done (Rejected (FormatError noWorkspaceMessage)), s) /\
  FormatterV2.format env document range s =
    (Done (Rejected (FormatError noWorkspaceMessage)), s) /\
  mentions "must be belong to one workspace" noWorkspaceMessage.
Proof.
  intros Ht Hw. rewrite formatV1_nonempty, formatV2_nonempty by done.
  rewrite Hw. simpl. repeat split.
  by exists "Format failed. File ", " at least.".
Qed.

Lemma format_without_workspace_rejects_witness :
  FormatterV1.format Sample.plain Sample.stray Sample.wholeFirstLine Sample.fresh
    = (Done (Rejected (FormatError noWorkspaceMessage)), Sample.fresh) /\
  FormatterV2.format Sample.plain Sample.stray Sample.wholeFirstLine Sample.fresh
    = (Done (Rejected (FormatError noWorkspaceMessage)), Sample.fresh) /\
  mentions "must be belong to one workspace" noWorkspaceMessage.
Proof.
  apply (format_without_workspace_rejects Sample.plain Sample.stray
           Sample.wholeFirstLine Sample.fresh).
  - vm_compute. discriminate.
  - reflexivity.
Defined.

(** C2, as stated, fails twice over: the rejection of a document of no
    workspace carries a [FormatError], not a [ConfigurationError]; and
    when the range is empty such a document is not rejected at all. *)
Lemma format_without_workspace_not_ConfigurationError :
  getWorkspaceFolder Sample.plain (documentUri Sample.stray) = None /\
  ~ (exists message,
       fst (FormatterV2.format Sample.plain Sample.stray Sample.wholeFirstLine
              Sample.fresh) = Done (Rejected (ConfigurationError message))) /\
  ~ (exists message,
       fst (FormatterV1.format Sample.plain Sample.stray Sample.wholeFirstLine
              Sample.fresh) = Done (Rejected (ConfigurationError message))) /\
  fst (FormatterV2.format Sample.plain Sample.stray Sample.nothing Sample.fresh)
    = Done (Resolved (Some "")).
Proof.
  split; [reflexivity|]. split; [|split; [|reflexivity]].
  - intros (message & H). vm_compute in H. discriminate.
  - intros (message & H). vm_compute in H. discriminate.
Qed.

(** C1: with auto-disable on and no [.perltidyrc] under the workspace
    root, a non-empty text is skipped by the first revision ([format]
    resolves to [undefined]) but rejected by the second one, whose
    [standBy] throws a [FormatError] that [format] lets through. In both
    the state is the one that was given. *)
Theorem format_autoDisable_skip_and_reject
    (env : Env) (document : TextDocument) (range : Range) (s : State)
    (workspace : WorkspaceFolder) :
  getText document range <> "" ->
  getWorkspaceFolder env (documentUri document) = Some workspace ->
  autoDisableSetting env = true ->
  existsSync env (join env (path (uri workspace)) ".perltidyrc") = false ->
  FormatterV1.format env document range s = (Done (Resolved None), s) /\
  FormatterV2.format env document range s =
    (Done (Rejected (FormatError noWorkspaceMessage)), s).
Proof.
  intros Ht Hw Hauto Hrc. rewrite formatV1_nonempty, formatV2_nonempty by done.
  rewrite Hw. split.
  - by rewrite Hauto, Hrc.
  - rewrite standBy_disabled; [done|]. by apply isFormatEnabled_false.
Qed.

Lemma format_autoDisable_skip_and_reject_witness :
  FormatterV1.format Sample.autoDisabled Sample.script Sample.wholeFirstLine
    Sample.fresh = (Done (Resolved None), Sample.fresh) /\
  FormatterV2.format Sample.autoDisabled Sample.script Sample.wholeFirstLine
    Sample.fresh =
    (Done (Rejected (FormatError noWorkspaceMessage)), Sample.fresh).
Proof.
  apply (format_autoDisable_skip_and_reject Sample.autoDisabled Sample.script
           Sample.wholeFirstLine Sample.fresh Sample.folder).
  - vm_compute. discriminate.
  - reflexivity.
  - reflexivity.
  - reflexivity.
Defined.

(** ** Events of the process *)

Lemma append_empty_r (s : string) : s +:+ "" = s.
Proof.
  induction s as [|a s IH]; [done|].
  change (String a (s +:+ "") = String a s). by rewrite IH.
Qed.

Lemma append_assoc (s t u : string) : (s +:+ t) +:+ u = s +:+ (t +:+ u).
Proof.
  induction s as [|a s IH]; [done|].
  change (String a ((s +:+ t) +:+ u) = String a (s +:+ (t +:+ u))).
  by rewrite IH.
Qed.

Lemma mentions_middle (pre needle post : string) :
  mentions needle (pre +:+ needle +:+ post).
Proof. by exists pre, post. Qed.

Lemma mentions_end (pre needle : string) : mentions needle (pre +:+ needle).
Proof. exists pre, "". by rewrite append_empty_r. Qed.

Section Events.
Context (env : Env).

(** Data events only accumulate text; they touch neither the promise
    nor the state. *)
Lemma runEvents_data (evs : list Event) (c : Call) (s : State) :
  forallb isData evs = true ->
  FormatterV2.runEvents env c evs s =
  (mkCall (currentWorkspace c) (callWorker c) (callExecutable c)
          (result_text c +:+ stdoutOf env evs) (error_text c +:+ stderrOf env evs)
          (settled c), s).
Proof.
  revert c. induction evs as [|ev evs IH]; intros c Hd; simpl.
  - rewrite !append_empty_r. by destruct c.
  - simpl in Hd. apply andb_true_iff in Hd as [Hev Hd].
    destruct ev; try discriminate; simpl; rewrite IH by done; simpl;
      by rewrite append_assoc.
Qed.

Lemma runEvents_app (evs1 evs2 : list Event) (c : Call) (s : State) :
  FormatterV2.runEvents env c (evs1 ++ evs2) s =
  FormatterV2.runEvents env (FormatterV2.runEvents env c evs1 s).1 evs2
                        (FormatterV2.runEvents env c evs1 s).2.
Proof.
  revert c s. induction evs1 as [|ev evs1 IH]; intros c s; simpl; [done|].
  destruct (FormatterV2.onEvent env c ev s) as [c' s']. apply IH.
Qed.

(** What a call that [format] left pending looks like. *)
Lemma format_pending_call
    (document : TextDocument) (range : Range) (s0 s1 : State) (c : Call) :
  wfState s0 ->
  FormatterV2.format env document range s0 = (Pending c, s1) ->
  freshCall c /\
  exists workspace,
    currentWorkspace c = Some workspace /\
    getWorkspaceFolder env (documentUri document) = Some workspace /\
    FormatterV2.isFormatEnabled env workspace = true /\
    callWorker c < spawned s1.
Proof.
  intros Hwf Hf. unfold FormatterV2.format in Hf.
  destruct (negb _ || _); [done|].
  destruct (FormatterV2.standBy env _ s0) as [[h|e] s'] eqn:Hs; [|done].
  apply standBy_handle_spawned in Hs as (w & Hw & Hen & Hlt & _); [|done].
  unfold stdinWriteEnd in Hf.
  destruct (stdinRaises env _ _); [done|].
  inversion Hf; subst. simpl. split; [done|]. by exists w.
Qed.

Lemma format_pending_fresh
    (document : TextDocument) (range : Range) (s0 s1 : State) (c : Call) :
  FormatterV2.format env document range s0 = (Pending c, s1) -> freshCall c.
Proof.
  intros Hf. unfold FormatterV2.format in Hf.
  destruct (negb _ || _); [done|].
  destruct (FormatterV2.standBy env _ s0) as [[h|e] s']; [|done].
  unfold stdinWriteEnd in Hf. destruct (stdinRaises env _ _); [done|].
  by inversion Hf; subst.
Qed.

Lemma evict_enabled (workspace : WorkspaceFolder) (s : State) :
  FormatterV2.isFormatEnabled env workspace = true ->
  spawnTarget env workspace <> "" ->
  exists file cwd,
    FormatterV2.evict env (Some workspace) s =
    mkState (<[workspace := mkHandle (spawned s) file]>
               (delete workspace (workerCacheMap s)))
            (S (spawned s))
            (log s ++ [CacheDelete (Some workspace);
                       Spawn (spawned s) file
                             (expectedArgs (profileSetting env)) cwd;
                       CacheSet workspace (spawned s)]).
Proof.
  intros Hen Ht. unfold FormatterV2.evict, cacheDelete. simpl.
  edestruct (standBy_missing env workspace) as (file & cwd & ->);
    [done|apply lookup_delete_eq|done|].
  exists file, cwd. simpl. by rewrite <- app_assoc.
Qed.





Lemma evict_wf (workspace : option WorkspaceFolder) (s : State) :
  wfState s -> wfState (FormatterV2.evict env workspace s).
Proof.
  intros Hwf. unfold FormatterV2.evict. apply standBy_wf.
  unfold cacheDelete, wfState. simpl. intros w h.
  destruct workspace as [w0|]; [|apply Hwf].
  rewrite lookup_delete. case_decide; [done|]. apply Hwf.
Qed.

(** The invariant of the cache is kept by every step of the formatter. *)
Lemma format_wf (document : TextDocument) (range : Range) (s : State) :
  wfState s -> wfState (snd (FormatterV2.format env document range s)).
Proof.
  intros Hwf. unfold FormatterV2.format.
  destruct (negb _ || _); [done|].
  pose proof (standBy_wf env (getWorkspaceFolder env (documentUri document))
                s Hwf) as Hs.
  destruct (FormatterV2.standBy env _ s) as [[h|e] s']; [|done].
  unfold stdinWriteEnd. destruct (stdinRaises env _ _); simpl.
  - by apply evict_wf.
  - exact Hs.
Qed.

Lemma onEvent_wf (c : Call) (ev : Event) (s : State) :
  wfState s -> wfState (snd (FormatterV2.onEvent env c ev s)).
Proof.
  intros Hwf. destruct ev; simpl; try done; by apply evict_wf.
Qed.

End Events.

(** The accumulated text is the decoded content of the stream when
    decoding goes through concatenation, which holds as long as no
    character is split between two chunks. *)
Lemma stdoutOf_whole (env : Env) (evs : list Event) :
  bufferToString env "" = "" ->
  (forall a b, bufferToString env (a +:+ b) =
               bufferToString env a +:+ bufferToString env b) ->
  stdoutOf env evs = bufferToString env (stdoutBytes evs).
Proof.
  intros H0 Happ. induction evs as [|ev evs IH]; simpl; [done|].
  destruct ev; try done. by rewrite Happ, IH.
Qed.

(** C6: for a call that [format] left pending, once the process has sent
    its data and closes with exit code [code]: if the code is 0 the
    promise resolves with the text accumulated from standard output; if
    the code is not 0 and no text was accumulated from standard error
    the promise rejects with a [FormatError] that states only the exit
    code; if text was accumulated, the message holds the exit code and
    ends with that text. The accumulated text is the chunks decoded one
    by one, [stdoutOf] and [stderrOf]: it is the content of the stream
    only while no character is split between two chunks. *)
Theorem format_close_settles_promise
    (env : Env) (document : TextDocument) (range : Range)
    (s0 s1 s : State) (c : Call) (evs : list Event) (code : Z) :
  FormatterV2.format env document range s0 = (Pending c, s1) ->
  forallb isData evs = true ->
  let promise :=
    settled (fst (FormatterV2.runEvents env c
                    (evs ++ [CloseEvent (Some code)]) s)) in
  (code = 0%Z -> promise = Some (Resolved (Some (stdoutOf env evs)))) /\
  (code <> 0%Z -> stderrOf env evs = "" ->
     promise = Some (Rejected (FormatError
       ("Format failed. Perltidy exited with exit code " +:+
        Js.showNumber code +:+ ".")))) /\
  (code <> 0%Z -> stderrOf env evs <> "" ->
     exists message,
       promise = Some (Rejected (FormatError message)) /\
       message = "Format failed. Perltidy exited with exit code " +:+
                 Js.showNumber code +:+ ". Error messages: " +:+ stderrOf env evs /\
       mentions (Js.showNumber code) message /\
       mentions (stderrOf env evs) message).
Proof.
  intros Hf Hd promise. apply format_pending_fresh in Hf as (Hr & He & Hs).
  assert (promise =
          Some (closeOutcome (Some code)
                  (mkCall (currentWorkspace c) (callWorker c) (callExecutable c)
                          (stdoutOf env evs) (stderrOf env evs) None))) as ->.
  { unfold promise. rewrite runEvents_app.
    rewrite (runEvents_data env evs c s) by done. simpl.
    rewrite Hr, He, Hs. simpl. unfold settle. by simpl. }
  unfold closeOutcome. simpl. repeat split.
  - intros ->. by rewrite bool_decide_eq_true_2.
  - intros Hc Herr. rewrite bool_decide_eq_false_2 by congruence.
    by rewrite Herr.
  - intros Hc Herr. rewrite bool_decide_eq_false_2 by congruence. simpl.
    destruct (String.eqb_spec (stderrOf env evs) ""); [done|].
    eexists. split; [done|]. split; [done|]. split.
    + apply mentions_middle.
    + rewrite <- !append_assoc. apply mentions_end.
Qed.

Lemma format_close_settles_promise_witness :
  let s1 := snd (FormatterV2.format Sample.plain Sample.script
                   Sample.wholeFirstLine Sample.fresh) in
  let evs := [StdoutData Sample.leadByte; StdoutData Sample.tailByte] in
  bufferToString Sample.plain (stdoutBytes evs) = Sample.eAcute /\
  settled (fst (FormatterV2.runEvents Sample.plain Sample.firstCall
                  (evs ++ [CloseEvent (Some 0%Z)]) s1)) =
  Some (Resolved (Some (String Sample.SUB (String Sample.SUB "")))).
Proof.
  intros s1 evs. split; [reflexivity|].
  assert (FormatterV2.format Sample.plain Sample.script Sample.wholeFirstLine
            Sample.fresh = (Pending Sample.firstCall, s1)) as Hf by reflexivity.
  assert (forallb isData evs = true) as Hd by reflexivity.
  destruct (format_close_settles_promise Sample.plain Sample.script
              Sample.wholeFirstLine Sample.fresh s1 s1 Sample.firstCall evs
              0%Z Hf Hd) as (Hok & _ & _).
  exact (Hok eq_refl).
Defined.

(** The same two bytes in one chunk arrive as the character they
    encode. *)
Example close_whole_character :
  settled (fst (FormatterV2.runEvents Sample.plain Sample.firstCall
                  [StdoutData (Sample.leadByte +:+ Sample.tailByte);
                   CloseEvent (Some 0%Z)]
                  Sample.fresh)) =
  Some (Resolved (Some Sample.eAcute)).
Proof. reflexivity. Qed.

Example close_nonzero_with_messages :
  settled (fst (FormatterV2.runEvents Sample.plain Sample.firstCall
                  [StdoutData "use "; StderrData "syntax error at line 2";
                   StdoutData "strict;"; CloseEvent (Some 2%Z)]
                  Sample.fresh)) =
  Some (Rejected (FormatError
    "Format failed. Perltidy exited with exit code 2. Error messages: syntax error at line 2")).
Proof. reflexivity. Qed.

Example close_zero_resolves :
  settled (fst (FormatterV2.runEvents Sample.plain
                  (mkCall (Some Sample.folder) 0 "perltidy" "" "" None)
                  [StdoutData "use "; StdoutData "strict;"; CloseEvent (Some 0%Z)]
                  Sample.fresh)) =
  Some (Resolved (Some "use strict;")).
Proof. reflexivity. Qed.

Example close_nonzero_silent :
  settled (fst (FormatterV2.runEvents Sample.plain
                  (mkCall (Some Sample.folder) 0 "perltidy" "" "" None)
                  [StdoutData "use "; CloseEvent (Some 2%Z)]
                  Sample.fresh)) =
  Some (Rejected (FormatError
    "Format failed. Perltidy exited with exit code 2.")).
Proof. reflexivity. Qed.




(** X20: the handlers of the first revision settle the promise exactly as
    those of the second one do; only the cache is left alone. *)
Lemma runEvents_revisions_agree
    (env : Env) (evs : list Event) (c : Call) (s1 s2 : State) :
  fst (FormatterV1.runEvents env c evs s1) =
  fst (FormatterV2.runEvents env c evs s2).
Proof.
  revert c s1 s2. induction evs as [|ev evs IH]; intros c s1 s2; [done|].
  destruct ev; simpl; apply IH.
Qed.

Lemma runEventsV1_state
    (env : Env) (evs : list Event) (c : Call) (s : State) :
  snd (FormatterV1.runEvents env c evs s) = s.
Proof.
  revert c. induction evs as [|ev evs IH]; intros c; [done|].
  destruct ev; simpl; apply IH.
Qed.

(** A promise settles once: when the process could not be started, Node
    sends [error] and then [close]; the rejection of the [error] handler
    stands and the one of the [close] handler is dropped. *)
Example error_then_close_keeps_first :
  settled (fst (FormatterV2.runEvents Sample.plain
                  (mkCall (Some Sample.folder) 0 "perltidy" "" "" None)
                  [ErrorEvent (ErrnoException "ENOENT" "spawn perltidy ENOENT");
                   CloseEvent (Some (-2)%Z)]
                  Sample.fresh)) =
  Some (Rejected (FormatError
    "Format failed. Executable file (`perltidy`) is not found. You probably forgot to install perltidy.")).
Proof. reflexivity. Qed.

(** * Further properties of the code *)

(** ** Which file [createWorker] runs, and where *)

Lemma profileArgs_expected (env : Env) :
  (if Js.truthy (profileSetting env)
   then ["--standard-output"; "-no-add-terminal-newline"] ++
        ["--profile=" +:+ profileSetting env]
   else ["--standard-output"; "-no-add-terminal-newline"]) =
  expectedArgs (profileSetting env).
Proof.
  unfold expectedArgs.
  destruct (decide (profileSetting env = "")) as [->|Hne]; [done|].
  apply truthy_nonempty in Hne. by rewrite Hne.
Qed.

(** X1: a relative executable that exists under the workspace root is
    run by its joined path, with the workspace's [uri.path] as working
    directory, whatever the scheme of the workspace. *)
Theorem createWorker_runs_workspace_script
    (env : Env) (workspace : WorkspaceFolder) (s : State) :
  isAbsolute env (executableSetting env) = false ->
  existsSync env (join env (path (uri workspace)) (executableSetting env))
    = true ->
  createWorker env workspace s =
  (Ok (mkHandle (spawned s)
         (join env (path (uri workspace)) (executableSetting env))),
   mkState (workerCacheMap s) (S (spawned s))
     (log s ++ [Spawn (spawned s)
                  (join env (path (uri workspace)) (executableSetting env))
                  (expectedArgs (profileSetting env))
                  (path (uri workspace))])).
Proof.
  intros Habs Hex.
  assert (spawnTarget env workspace =
          join env (path (uri workspace)) (executableSetting env)) as Ht
    by (unfold spawnTarget; by rewrite Habs, Hex).
  assert (spawnCwd env workspace = path (uri workspace)) as Hd
    by (unfold spawnCwd; by rewrite Habs, Hex).
  rewrite createWorker_ok; [by rewrite Ht, Hd|].
  rewrite Ht. apply join_nonempty.
Qed.

Lemma createWorker_runs_workspace_script_witness :
  createWorker Sample.wrapped Sample.folder Sample.fresh =
  (Ok (mkHandle 0 "/ws/script/tidy.pl"),
   mkState ∅ 1
     [Spawn 0 "/ws/script/tidy.pl"
        ["--standard-output"; "-no-add-terminal-newline"] "/ws"]).
Proof.
  apply (createWorker_runs_workspace_script Sample.wrapped Sample.folder
           Sample.fresh); reflexivity.
Defined.

(** X2: an absolute executable, or a relative one that does not exist
    under the workspace root, is handed to [spawn] as configured; the
    working directory is the workspace's [fsPath] for a [file] workspace
    and ["."] for any other scheme. [createWorker] returns the process
    with the configured executable, unless that is the empty string:
    then [spawn] throws and [createWorker] with it. *)
Theorem createWorker_passes_executable_through
    (env : Env) (workspace : WorkspaceFolder) (s : State) :
  isAbsolute env (executableSetting env) = true \/
  existsSync env (join env (path (uri workspace)) (executableSetting env))
    = false ->
  log (snd (createWorker env workspace s)) =
    log s ++ [Spawn (spawned s) (executableSetting env)
                (expectedArgs (profileSetting env))
                (if String.eqb (scheme (uri workspace)) "file"
                 then fsPath (uri workspace) else ".")] /\
  workerCacheMap (snd (createWorker env workspace s)) = workerCacheMap s /\
  (executableSetting env <> "" ->
   fst (createWorker env workspace s) =
     Ok (mkHandle (spawned s) (executableSetting env)) /\
   spawned (snd (createWorker env workspace s)) = S (spawned s)) /\
  (executableSetting env = "" ->
   fst (createWorker env workspace s) = Throw emptyFileError /\
   spawned (snd (createWorker env workspace s)) = spawned s).
Proof.
  intros H.
  assert (negb (isAbsolute env (executableSetting env))
          && existsSync env
               (join env (path (uri workspace)) (executableSetting env))
          = false) as Hb.
  { destruct H as [-> | ->]; [done|]. by destruct (negb _). }
  assert (spawnTarget env workspace = executableSetting env) as Ht
    by (unfold spawnTarget; by rewrite Hb).
  assert (spawnCwd env workspace =
          (if String.eqb (scheme (uri workspace)) "file"
           then fsPath (uri workspace) else ".")) as Hd
    by (unfold spawnCwd; by rewrite Hb).
  rewrite createWorker_spec, Ht, Hd. simpl. repeat split; try done.
  - by destruct (String.eqb_spec (executableSetting env) "").
  - by destruct (String.eqb_spec (executableSetting env) "").
  - by rewrite H0.
  - by rewrite H0.
Qed.

Lemma createWorker_passes_executable_through_witness :
  log (snd (createWorker Sample.plain Sample.remoteFolder Sample.fresh)) =
    [] ++ [Spawn 0 "perltidy"
             ["--standard-output"; "-no-add-terminal-newline"] "."] /\
  fst (createWorker Sample.plain Sample.remoteFolder Sample.fresh) =
    Ok (mkHandle 0 "perltidy") /\
  fst (createWorker Sample.unset Sample.remoteFolder Sample.fresh) =
    Throw emptyFileError.
Proof.
  destruct (createWorker_passes_executable_through Sample.plain
              Sample.remoteFolder Sample.fresh) as (Hlog & _ & Hok & _);
    [right; reflexivity|].
  destruct (createWorker_passes_executable_through Sample.unset
              Sample.remoteFolder Sample.fresh) as (_ & _ & _ & Hthrow);
    [right; reflexivity|].
  split; [exact Hlog|]. split.
  - apply Hok. discriminate.
  - apply Hthrow. reflexivity.
Defined.

(** ** The cache under [standBy] *)

Lemma standBy_cases (env : Env) (workspace : option WorkspaceFolder) (s : State) :
  (exists message,
     FormatterV2.standBy env workspace s = (Throw (FormatError message), s)) \/
  (exists w h, workspace = Some w /\
               FormatterV2.isFormatEnabled env w = true /\
               workerCacheMap s !! w = Some h /\
               FormatterV2.standBy env workspace s = (Ok h, s)) \/
  (exists w file cwd, workspace = Some w /\
     FormatterV2.isFormatEnabled env w = true /\
     workerCacheMap s !! w = None /\
     FormatterV2.standBy env workspace s =
     (Ok (mkHandle (spawned s) file),
      mkState (<[w := mkHandle (spawned s) file]> (workerCacheMap s))
              (S (spawned s))
              (log s ++ [Spawn (spawned s) file
                               (expectedArgs (profileSetting env)) cwd;
                         CacheSet w (spawned s)]))) \/
  (exists w, workspace = Some w /\
     FormatterV2.isFormatEnabled env w = true /\
     workerCacheMap s !! w = None /\
     FormatterV2.standBy env workspace s =
     (Throw emptyFileError,
      mkState (workerCacheMap s) (spawned s)
              (log s ++ [Spawn (spawned s) ""
                               (expectedArgs (profileSetting env))
                               (spawnCwd env w)]))).
Proof.
  destruct workspace as [w|]; [|left; by eexists].
  destruct (FormatterV2.isFormatEnabled env w) eqn:Hen.
  2:{ left. eexists. by apply standBy_disabled. }
  destruct (workerCacheMap s !! w) as [h|] eqn:Hc.
  - right; left. exists w, h. repeat split; try done. by apply standBy_cached.
  - destruct (decide (spawnTarget env w = "")) as [Ht|Ht].
    + right; right; right. exists w. repeat split; try done.
      by apply standBy_missing_throws.
    + right; right; left.
      destruct (standBy_missing env w s Hen Hc Ht) as (file & cwd & Hm).
      by exists w, file, cwd.
Qed.

(** X3: [standBy] is idempotent: called again on the state it left, it
    gives the same answer and leaves the cache and the processes as
    they are; one call spawns at most one process. Unless [spawn]
    refused an empty file name (then the second call asks [spawn]
    again), the second call changes nothing at all. *)
Theorem standBy_idempotent
    (env : Env) (workspace : option WorkspaceFolder) (s : State) :
  let first := FormatterV2.standBy env workspace s in
  let second := FormatterV2.standBy env workspace (snd first) in
  fst second = fst first /\
  workerCacheMap (snd second) = workerCacheMap (snd first) /\
  spawned (snd second) = spawned (snd first) /\
  spawned (snd first) <= S (spawned s) /\
  (fst first <> Throw emptyFileError -> second = first).
Proof.
  intros first second. unfold second, first. clear first second.
  destruct (standBy_cases env workspace s)
    as [[e He]|[(w & h & -> & Hen & Hc & Hs)
               |[(w & file & cwd & -> & Hen & Hc & Hs)
                |(w & -> & Hen & Hc & Hs)]]].
  - rewrite He. cbn [fst snd]. rewrite He. cbn [fst snd].
    repeat split; try done; lia.
  - rewrite Hs. cbn [fst snd]. rewrite Hs. cbn [fst snd].
    repeat split; try done; lia.
  - rewrite Hs. cbn [fst snd].
    rewrite (standBy_cached env w (mkHandle (spawned s) file));
      [|done|simpl; apply lookup_insert_eq].
    cbn [fst snd]. repeat split; try done; simpl; lia.
  - assert (spawnTarget env w = "") as Ht.
    { destruct (decide (spawnTarget env w = "")) as [Ht|Ht]; [done|].
      destruct (standBy_missing env w s Hen Hc Ht) as (f & d & Hm).
      rewrite Hm in Hs. discriminate. }
    rewrite Hs. cbn [fst snd].
    rewrite standBy_missing_throws by done.
    cbn [fst snd]. repeat split; try done; simpl; lia.
Qed.

(** When [spawn] refuses the file name nothing is cached, so a second
    [standBy] calls [spawn] again and is refused again: the two calls
    give the same answer and differ in the recorded calls only. *)
Example standBy_retries_refused_spawn :
  let first :=
    FormatterV2.standBy Sample.unset (Some Sample.folder) Sample.fresh in
  let second :=
    FormatterV2.standBy Sample.unset (Some Sample.folder) (snd first) in
  fst first = Throw emptyFileError /\
  fst second = Throw emptyFileError /\
  length (log (snd first)) = 1 /\
  length (log (snd second)) = 2.
Proof. repeat split; reflexivity. Qed.

(** ** What every step of the formatter preserves *)

Section Steps.
Context (env : Env).

Lemma standBy_other
    (workspace : option WorkspaceFolder) (s : State) (w' : WorkspaceFolder) :
  Some w' <> workspace ->
  workerCacheMap (snd (FormatterV2.standBy env workspace s)) !! w' =
  workerCacheMap s !! w'.
Proof.
  intros Hne. destruct (standBy_cases env workspace s)
    as [[e ->]|[(w & h & -> & _ & _ & ->)
               |[(w & file & cwd & -> & _ & _ & ->)|(w & -> & _ & _ & ->)]]];
    try done.
  simpl. apply lookup_insert_ne. congruence.
Qed.

Lemma evict_other
    (workspace : option WorkspaceFolder) (s : State) (w' : WorkspaceFolder) :
  Some w' <> workspace ->
  workerCacheMap (FormatterV2.evict env workspace s) !! w' =
  workerCacheMap s !! w'.
Proof.
  intros Hne. unfold FormatterV2.evict. rewrite standBy_other by done.
  unfold cacheDelete. simpl. destruct workspace as [w|]; [|done].
  apply lookup_delete_ne. congruence.
Qed.

Lemma runEvents_other
    (evs : list Event) (c : Call) (s : State) (w' : WorkspaceFolder) :
  Some w' <> currentWorkspace c ->
  workerCacheMap (snd (FormatterV2.runEvents env c evs s)) !! w' =
  workerCacheMap s !! w'.
Proof.
  revert c s. induction evs as [|ev evs IH]; intros c s Hne; [done|].
  destruct ev; simpl; rewrite IH; try done;
    unfold settle; try (by apply evict_other);
    destruct (settled c); done.
Qed.

Lemma runEvents_wf (evs : list Event) (c : Call) (s : State) :
  wfState s -> wfState (snd (FormatterV2.runEvents env c evs s)).
Proof.
  revert c s. induction evs as [|ev evs IH]; intros c s Hwf; [done|].
  simpl. pose proof (onEvent_wf env c ev s Hwf) as H.
  destruct (FormatterV2.onEvent env c ev s) as [c' s']. by apply IH.
Qed.

Lemma grows_refl (s : State) : grows env s s.
Proof. exists []. split; [by rewrite app_nil_r|]. by intros ???? []. Qed.

Lemma grows_trans (s1 s2 s3 : State) :
  grows env s1 s2 -> grows env s2 s3 -> grows env s1 s3.
Proof.
  intros (a1 & H1 & Hd1) (a2 & H2 & Hd2). exists (a1 ++ a2). split.
  - by rewrite H2, H1, app_assoc.
  - intros pid file args cwd Hin. apply in_app_or in Hin as [Hin|Hin]; eauto.
Qed.

Lemma standBy_grows (workspace : option WorkspaceFolder) (s : State) :
  grows env s (snd (FormatterV2.standBy env workspace s)).
Proof.
  destruct (standBy_cases env workspace s)
    as [[e ->]|[(w & h & -> & _ & _ & ->)
               |[(w & file & cwd & -> & _ & _ & ->)|(w & -> & _ & _ & ->)]]];
    try apply grows_refl.
  - eexists. split; [done|]. intros pid f args d [H|[H|[]]]; by inversion H.
  - eexists. split; [done|]. intros pid f args d [H|[]]; by inversion H.
Qed.

Lemma evict_grows (workspace : option WorkspaceFolder) (s : State) :
  grows env s (FormatterV2.evict env workspace s).
Proof.
  unfold FormatterV2.evict. eapply grows_trans; [|apply standBy_grows].
  exists [CacheDelete workspace]. split; [done|].
  intros pid f args d [H|[]]. discriminate.
Qed.

Lemma formatV2_grows (document : TextDocument) (range : Range) (s : State) :
  grows env s (snd (FormatterV2.format env document range s)).
Proof.
  unfold FormatterV2.format. destruct (negb _ || _); [apply grows_refl|].
  pose proof (standBy_grows (getWorkspaceFolder env (documentUri document)) s)
    as Hs.
  destruct (FormatterV2.standBy env _ s) as [[h|e] s1]; [|done].
  unfold stdinWriteEnd. destruct (stdinRaises env _ _); simpl in *.
  - eapply grows_trans; [exact Hs|apply evict_grows].
  - eapply grows_trans; [exact Hs|].
    eexists [_; _]. split; [unfold emit; simpl; by rewrite <- app_assoc|].
    intros pid f args d [H|[H|[]]]; discriminate.
Qed.

Lemma runEvents_grows (evs : list Event) (c : Call) (s : State) :
  grows env s (snd (FormatterV2.runEvents env c evs s)).
Proof.
  revert c s. induction evs as [|ev evs IH]; intros c s; [apply grows_refl|].
  destruct ev; simpl; try apply IH;
    (eapply grows_trans; [apply evict_grows|apply IH]).
Qed.

Lemma awaitFormat_unfold
    (document : TextDocument) (range : Range) (evs : list Event) (s : State) :
  snd (Extension.awaitFormat env document range evs s) =
  match FormatterV2.format env document range s with
  | (Done _, s1) => s1
  | (Pending c, s1) => snd (FormatterV2.runEvents env c evs s1)
  end.
Proof.
  unfold Extension.awaitFormat.
  destruct (FormatterV2.format env document range s) as [[o|c] s1]; [done|].
  by destruct (FormatterV2.runEvents env c evs s1).
Qed.

Lemma format_pending_fields
    (document : TextDocument) (range : Range) (s s1 : State) (c : Call) :
  FormatterV2.format env document range s = (Pending c, s1) ->
  currentWorkspace c = getWorkspaceFolder env (documentUri document).
Proof.
  intros Hf. unfold FormatterV2.format in Hf.
  destruct (negb _ || _); [done|].
  destruct (FormatterV2.standBy env _ s) as [[h|e] s']; [|done].
  unfold stdinWriteEnd in Hf. destruct (stdinRaises env _ _); [done|].
  by inversion Hf.
Qed.

Lemma formatV2_other
    (document : TextDocument) (range : Range) (s : State)
    (w' : WorkspaceFolder) :
  Some w' <> getWorkspaceFolder env (documentUri document) ->
  workerCacheMap (snd (FormatterV2.format env document range s)) !! w' =
  workerCacheMap s !! w'.
Proof.
  intros Hne. unfold FormatterV2.format.
  destruct (negb _ || _); [done|].
  pose proof (standBy_other _ s w' Hne) as Hs.
  destruct (FormatterV2.standBy env _ s) as [[h|e] s']; [|done].
  unfold stdinWriteEnd. destruct (stdinRaises env _ _); simpl in *.
  - by rewrite evict_other.
  - done.
Qed.

End Steps.

(** X4: one formatting round trip (the call of [format] and the events
    that follow) leaves the cache entries of every other workspace as
    they were. *)
Theorem other_workspaces_untouched
    (env : Env) (document : TextDocument) (range : Range)
    (evs : list Event) (s : State) (w' : WorkspaceFolder) :
  Some w' <> getWorkspaceFolder env (documentUri document) ->
  workerCacheMap (snd (Extension.awaitFormat env document range evs s)) !! w' =
  workerCacheMap s !! w'.
Proof.
  intros Hne. rewrite awaitFormat_unfold.
  pose proof (formatV2_other env document range s w' Hne) as Ho.
  destruct (FormatterV2.format env document range s) as [[o|c] s1] eqn:Hf;
    [done|].
  apply format_pending_fields in Hf.
  rewrite runEvents_other by congruence. exact Ho.
Qed.

Lemma other_workspaces_untouched_witness :
  let s := mkState {[Sample.remoteFolder := mkHandle 0 "perltidy"]} 1 [] in
  workerCacheMap
    (snd (Extension.awaitFormat Sample.plain Sample.script
            Sample.wholeFirstLine [CloseEvent (Some 0%Z)] s))
    !! Sample.remoteFolder = Some (mkHandle 0 "perltidy").
Proof.
  intros s.
  rewrite (other_workspaces_untouched Sample.plain Sample.script
             Sample.wholeFirstLine [CloseEvent (Some 0%Z)] s
             Sample.remoteFolder).
  - apply lookup_singleton_eq.
  - vm_compute. discriminate.
Defined.

(** X5: starting from a state where every cached handle names a spawned
    process, a formatting round trip ends in such a state. *)
Theorem cache_names_spawned_processes
    (env : Env) (document : TextDocument) (range : Range)
    (evs : list Event) (s : State) :
  wfState s ->
  wfState (snd (Extension.awaitFormat env document range evs s)).
Proof.
  intros Hwf. rewrite awaitFormat_unfold.
  pose proof (format_wf env document range s Hwf) as Hf.
  destruct (FormatterV2.format env document range s) as [[o|c] s1]; [done|].
  by apply runEvents_wf.
Qed.

Lemma cache_names_spawned_processes_witness :
  wfState (snd (Extension.awaitFormat Sample.plain Sample.script
                  Sample.wholeFirstLine [CloseEvent (Some 0%Z)] Sample.fresh)).
Proof.
  apply (cache_names_spawned_processes Sample.plain Sample.script
           Sample.wholeFirstLine [CloseEvent (Some 0%Z)] Sample.fresh).
  unfold wfState, Sample.fresh. simpl. intros w h H.
  by rewrite lookup_empty in H.
Defined.

(** X6: a formatting round trip only appends to the log, and every
    process it spawns (for the call itself or to refill the cache)
    gets the documented arguments. *)
Theorem every_spawn_as_documented
    (env : Env) (document : TextDocument) (range : Range)
    (evs : list Event) (s : State) :
  exists added,
    log (snd (Extension.awaitFormat env document range evs s)) =
      log s ++ added /\
    spawnsAsDocumented env added.
Proof.
  rewrite awaitFormat_unfold.
  pose proof (formatV2_grows env document range s) as Hf.
  destruct (FormatterV2.format env document range s) as [[o|c] s1]; [done|].
  eapply grows_trans; [exact Hf|apply runEvents_grows].
Qed.

(** ** [format] and the cache *)

Section FormatCache.
Context (env : Env).

Lemma format_pending_cached
    (document : TextDocument) (range : Range) (s s1 : State) (c : Call) :
  FormatterV2.format env document range s = (Pending c, s1) ->
  exists workspace,
    currentWorkspace c = Some workspace /\
    FormatterV2.isFormatEnabled env workspace = true /\
    workerCacheMap s1 !! workspace =
      Some (mkHandle (callWorker c) (callExecutable c)).
Proof.
  intros Hf. unfold FormatterV2.format in Hf.
  destruct (negb _ || _); [done|].
  destruct (standBy_cases env (getWorkspaceFolder env (documentUri document)) s)
    as [[e He]|[(w & h & Hw & Hen & Hc & Hs)
               |[(w & file & cwd & Hw & Hen & Hc & Hs)
                |(w & Hw & Hen & Hc & Hs)]]];
    rewrite ?He, ?Hs in Hf; [done| | |done];
    unfold stdinWriteEnd in Hf; simpl in Hf;
    destruct (stdinRaises env _ _); try done;
    inversion Hf; subst; exists w; simpl; repeat split; try done.
  - rewrite Hc. by destruct h.
  - apply lookup_insert_eq.
Qed.

End FormatCache.

(** X7: with a handle cached for the workspace, [format] spawns nothing:
    it writes the text to the cached process, ends its input and waits
    for that process. *)
Theorem format_uses_cached_process
    (env : Env) (document : TextDocument) (range : Range) (s : State)
    (workspace : WorkspaceFolder) (h : Handle) :
  getText document range <> "" ->
  getWorkspaceFolder env (documentUri document) = Some workspace ->
  FormatterV2.isFormatEnabled env workspace = true ->
  workerCacheMap s !! workspace = Some h ->
  stdinRaises env (worker h) (getText document range) = None ->
  FormatterV2.format env document range s =
  (Pending (mkCall (Some workspace) (worker h) (executable h) "" "" None),
   mkState (workerCacheMap s) (spawned s)
           (log s ++ [StdinWrite (worker h) (getText document range);
                      StdinEnd (worker h)])).
Proof.
  intros Ht Hw Hen Hc Hr. rewrite formatV2_nonempty by done.
  rewrite Hw, (standBy_cached env workspace h s Hen Hc).
  unfold stdinWriteEnd, emit. rewrite Hr. simpl. by rewrite <- app_assoc.
Qed.

Lemma format_uses_cached_process_witness :
  let s := mkState {[Sample.folder := mkHandle 7 "perltidy"]} 8 [] in
  FormatterV2.format Sample.plain Sample.script Sample.wholeFirstLine s =
  (Pending (mkCall (Some Sample.folder) 7 "perltidy" "" "" None),
   mkState {[Sample.folder := mkHandle 7 "perltidy"]} 8
           [StdinWrite 7 "use stri"; StdinEnd 7]).
Proof.
  intros s.
  apply (format_uses_cached_process Sample.plain Sample.script
           Sample.wholeFirstLine s Sample.folder (mkHandle 7 "perltidy")).
  - vm_compute. discriminate.
  - reflexivity.
  - reflexivity.
  - apply lookup_singleton_eq.
  - reflexivity.
Defined.

(** X8: without a cached handle, and when the file name that
    [createWorker] hands to [spawn] is not empty, [format] for an
    enabled workspace spawns one process, caches it, writes the text to
    it and ends its input, in this order, and waits for that process. *)
Theorem format_cold_start
    (env : Env) (document : TextDocument) (range : Range) (s : State)
    (workspace : WorkspaceFolder) :
  getText document range <> "" ->
  getWorkspaceFolder env (documentUri document) = Some workspace ->
  FormatterV2.isFormatEnabled env workspace = true ->
  workerCacheMap s !! workspace = None ->
  spawnTarget env workspace <> "" ->
  stdinRaises env (spawned s) (getText document range) = None ->
  FormatterV2.format env document range s =
  (Pending (mkCall (Some workspace) (spawned s) (spawnTarget env workspace)
                   "" "" None),
   mkState (<[workspace := mkHandle (spawned s) (spawnTarget env workspace)]>
              (workerCacheMap s))
           (S (spawned s))
           (log s ++ [Spawn (spawned s) (spawnTarget env workspace)
                        (expectedArgs (profileSetting env))
                        (spawnCwd env workspace);
                      CacheSet workspace (spawned s);
                      StdinWrite (spawned s) (getText document range);
                      StdinEnd (spawned s)])).
Proof.
  intros Ht Hw Hen Hc Hfile Hr. rewrite formatV2_nonempty by done. rewrite Hw.
  rewrite (standBy_spawns env workspace s Hen Hc Hfile).
  unfold stdinWriteEnd, emit. simpl. rewrite Hr. simpl.
  by rewrite <- !app_assoc.
Qed.

Lemma format_cold_start_witness :
  FormatterV2.format Sample.plain Sample.script Sample.wholeFirstLine
    Sample.fresh =
  (Pending (mkCall (Some Sample.folder) 0 "perltidy" "" "" None),
   mkState (<[Sample.folder := mkHandle 0 "perltidy"]> ∅) 1
           ([] ++ [Spawn 0 "perltidy"
                     ["--standard-output"; "-no-add-terminal-newline"] "/ws";
                   CacheSet Sample.folder 0;
                   StdinWrite 0 "use stri";
                   StdinEnd 0])).
Proof.
  apply (format_cold_start Sample.plain Sample.script Sample.wholeFirstLine
           Sample.fresh Sample.folder).
  - vm_compute. discriminate.
  - reflexivity.
  - reflexivity.
  - reflexivity.
  - discriminate.
  - reflexivity.
Defined.

(** X29: when the file name that [createWorker] hands to [spawn] is the
    empty string (the executable setting is empty and resolves to
    nothing under the workspace), [spawn] throws: without a cached
    handle, [format] for an enabled workspace rejects with that error
    in both revisions, no process exists afterwards and nothing is
    cached or written. *)
Theorem format_empty_executable_rejects
    (env : Env) (document : TextDocument) (range : Range) (s : State)
    (workspace : WorkspaceFolder) :
  getText document range <> "" ->
  getWorkspaceFolder env (documentUri document) = Some workspace ->
  FormatterV2.isFormatEnabled env workspace = true ->
  workerCacheMap s !! workspace = None ->
  spawnTarget env workspace = "" ->
  FormatterV2.format env document range s =
    (Done (Rejected emptyFileError),
     mkState (workerCacheMap s) (spawned s)
             (log s ++ [Spawn (spawned s) ""
                          (expectedArgs (profileSetting env))
                          (spawnCwd env workspace)])) /\
  FormatterV1.format env document range s =
    FormatterV2.format env document range s.
Proof.
  intros Ht Hw Hen Hc Hfile.
  rewrite formatV1_nonempty, formatV2_nonempty by done. rewrite Hw.
  rewrite (standBy_missing_throws env workspace s Hen Hc Hfile).
  split; [done|].
  unfold FormatterV2.isFormatEnabled in Hen.
  assert (autoDisableSetting env &&
          negb (existsSync env (join env (path (uri workspace)) ".perltidyrc"))
          = false) as ->.
  { destruct (autoDisableSetting env); [|done].
    by destruct (existsSync env _). }
  by rewrite (createWorker_throws env workspace s Hfile).
Qed.

Lemma format_empty_executable_rejects_witness :
  FormatterV2.format Sample.unset Sample.script Sample.wholeFirstLine
    Sample.fresh =
    (Done (Rejected emptyFileError),
     mkState ∅ 0
             ([] ++ [Spawn 0 ""
                       ["--standard-output"; "-no-add-terminal-newline"]
                       "/ws"])) /\
  FormatterV1.format Sample.unset Sample.script Sample.wholeFirstLine
    Sample.fresh =
    FormatterV2.format Sample.unset Sample.script Sample.wholeFirstLine
      Sample.fresh.
Proof.
  apply (format_empty_executable_rejects Sample.unset Sample.script
           Sample.wholeFirstLine Sample.fresh Sample.folder).
  - vm_compute. discriminate.
  - reflexivity.
  - reflexivity.
  - reflexivity.
  - reflexivity.
Defined.

(** X9: as long as the process of a pending call has neither closed nor
    signalled an error, the next [format] for the same workspace is
    given the very same process: it writes its text to the input stream
    that the first call has already ended, and spawns nothing. *)
Theorem pending_process_is_shared
    (env : Env) (document1 document2 : TextDocument) (range1 range2 : Range)
    (s s1 : State) (c1 : Call) :
  FormatterV2.format env document1 range1 s = (Pending c1, s1) ->
  getText document2 range2 <> "" ->
  getWorkspaceFolder env (documentUri document2) = currentWorkspace c1 ->
  stdinRaises env (callWorker c1) (getText document2 range2) = None ->
  FormatterV2.format env document2 range2 s1 =
  (Pending (mkCall (currentWorkspace c1) (callWorker c1) (callExecutable c1)
                   "" "" None),
   mkState (workerCacheMap s1) (spawned s1)
           (log s1 ++ [StdinWrite (callWorker c1) (getText document2 range2);
                       StdinEnd (callWorker c1)])).
Proof.
  intros Hf Ht Hw Hr.
  apply format_pending_cached in Hf as (w & Hws & Hen & Hc).
  rewrite Hws in *.
  by rewrite (format_uses_cached_process env document2 range2 s1 w
                (mkHandle (callWorker c1) (callExecutable c1))).
Qed.

Lemma pending_process_is_shared_witness :
  let s1 := snd (FormatterV2.format Sample.plain Sample.script
                   Sample.wholeFirstLine Sample.fresh) in
  FormatterV2.format Sample.plain Sample.statements Sample.wholeFirstLine s1 =
  (Pending Sample.firstCall,
   mkState (workerCacheMap s1) (spawned s1)
           (log s1 ++ [StdinWrite 0 "my $x = "; StdinEnd 0])).
Proof.
  intros s1.
  apply (pending_process_is_shared Sample.plain Sample.script Sample.statements
           Sample.wholeFirstLine Sample.wholeFirstLine Sample.fresh s1
           Sample.firstCall).
  - reflexivity.
  - vm_compute. discriminate.
  - reflexivity.
  - reflexivity.
Defined.

(** X10: in the first revision every call that reaches a process has
    spawned that process itself: two pending calls never share one. *)
Theorem formatV1_spawns_per_call
    (env : Env) (document1 document2 : TextDocument) (range1 range2 : Range)
    (s s1 s' s2 : State) (c1 c2 : Call) :
  FormatterV1.format env document1 range1 s = (Pending c1, s1) ->
  spawned s1 <= spawned s' ->
  FormatterV1.format env document2 range2 s' = (Pending c2, s2) ->
  callWorker c1 = spawned s /\ spawned s1 = S (spawned s) /\
  callWorker c2 = spawned s' /\ callWorker c1 <> callWorker c2.
Proof.
  assert (forall d r t t1 c,
            FormatterV1.format env d r t = (Pending c, t1) ->
            callWorker c = spawned t /\ spawned t1 = S (spawned t)) as Hone.
  { intros d r t t1 c Hf. unfold FormatterV1.format in Hf.
    destruct (negb _ || _); [done|].
    destruct (getWorkspaceFolder env _) as [w|]; [|done].
    destruct (_ && _); [done|].
    rewrite createWorker_spec in Hf.
    destruct (String.eqb (spawnTarget env w) ""); [done|].
    unfold stdinWriteEnd in Hf. simpl in Hf.
    destruct (stdinRaises env _ _); [done|]. by inversion Hf; subst. }
  intros H1 Hle H2. apply Hone in H1 as [? ?]. apply Hone in H2 as [? ?].
  repeat split; try done. lia.
Qed.

Lemma formatV1_spawns_per_call_witness :
  let s1 := snd (FormatterV1.format Sample.plain Sample.script
                   Sample.wholeFirstLine Sample.fresh) in
  let s2 := snd (FormatterV1.format Sample.plain Sample.statements
                   Sample.wholeFirstLine s1) in
  callWorker Sample.firstCall = 0 /\ spawned s1 = 1 /\
  callWorker (mkCall (Some Sample.folder) 1 "perltidy" "" "" None) = 1 /\
  callWorker Sample.firstCall <>
  callWorker (mkCall (Some Sample.folder) 1 "perltidy" "" "" None).
Proof.
  intros s1 s2.
  apply (formatV1_spawns_per_call Sample.plain Sample.script Sample.statements
           Sample.wholeFirstLine Sample.wholeFirstLine
           Sample.fresh s1 s1 s2 Sample.firstCall
           (mkCall (Some Sample.folder) 1 "perltidy" "" "" None)).
  - reflexivity.
  - reflexivity.
  - reflexivity.
Defined.

(** X11: when writing to the input stream raises, and the file name
    that [createWorker] hands to [spawn] is not empty, both revisions of
    [format] for an enabled workspace reject with what was raised; the
    second one then replaces the cached handle by a newly spawned
    process, the first one leaves the process it spawned alone. *)
Theorem format_write_failure
    (env : Env) (document : TextDocument) (range : Range) (s : State)
    (workspace : WorkspaceFolder) (e : Thrown) :
  getText document range <> "" ->
  getWorkspaceFolder env (documentUri document) = Some workspace ->
  FormatterV2.isFormatEnabled env workspace = true ->
  spawnTarget env workspace <> "" ->
  (forall pid, stdinRaises env pid (getText document range) = Some e) ->
  (exists fresh s',
     FormatterV2.format env document range s = (Done (Rejected e), s') /\
     workerCacheMap s' !! workspace = Some fresh /\
     S (worker fresh) = spawned s' /\
     spawned s <= worker fresh) /\
  FormatterV1.format env document range s =
    (Done (Rejected e),
     mkState (workerCacheMap s) (S (spawned s))
             (log s ++ [Spawn (spawned s) (spawnTarget env workspace)
                          (expectedArgs (profileSetting env))
                          (spawnCwd env workspace)])).
Proof.
  intros Ht Hw Hen Hfile Hr. split.
  - rewrite formatV2_nonempty by done. rewrite Hw.
    assert (exists h s1, FormatterV2.standBy env (Some workspace) s = (Ok h, s1)
                         /\ spawned s <= spawned s1) as (h & s1 & -> & Hmono).
    { destruct (workerCacheMap s !! workspace) as [h|] eqn:Hc.
      - exists h, s. by rewrite (standBy_cached env workspace h).
      - rewrite (standBy_spawns env workspace s Hen Hc Hfile).
        eexists _, _. split; [done|]. simpl. lia. }
    unfold stdinWriteEnd. rewrite Hr.
    destruct (evict_enabled env workspace s1 Hen Hfile) as (file & cwd & Hev).
    exists (mkHandle (spawned s1) file). eexists. split; [done|].
    rewrite Hev. simpl. split; [apply lookup_insert_eq|]. by split.
  - rewrite formatV1_nonempty by done. rewrite Hw.
    unfold FormatterV2.isFormatEnabled in Hen.
    assert (autoDisableSetting env &&
            negb (existsSync env (join env (path (uri workspace)) ".perltidyrc"))
            = false) as ->.
    { destruct (autoDisableSetting env); [|done].
      by destruct (existsSync env _). }
    rewrite (createWorker_ok env workspace s Hfile).
    unfold stdinWriteEnd. simpl. by rewrite Hr.
Qed.

Lemma format_write_failure_witness :
  (exists fresh s',
     FormatterV2.format Sample.broken Sample.script Sample.wholeFirstLine
       Sample.fresh = (Done (Rejected (OtherError "write EPIPE")), s') /\
     workerCacheMap s' !! Sample.folder = Some fresh /\
     S (worker fresh) = spawned s' /\
     spawned Sample.fresh <= worker fresh) /\
  FormatterV1.format Sample.broken Sample.script Sample.wholeFirstLine
    Sample.fresh =
    (Done (Rejected (OtherError "write EPIPE")),
     mkState ∅ 1
             ([] ++ [Spawn 0 "perltidy"
                       ["--standard-output"; "-no-add-terminal-newline"]
                       "/ws"])).
Proof.
  apply (format_write_failure Sample.broken Sample.script Sample.wholeFirstLine
           Sample.fresh Sample.folder (OtherError "write EPIPE")).
  - vm_compute. discriminate.
  - reflexivity.
  - reflexivity.
  - discriminate.
  - intros pid. reflexivity.
Defined.

(** ** How the promise settles *)

Section Settling.
Context (env : Env).

Lemma settle_settled (o : Outcome) (c : Call) :
  is_Some (settled c) -> settle o c = c.
Proof. intros [o' H]. unfold settle. by rewrite H. Qed.

Lemma runEvents_settled (evs : list Event) (c : Call) (s : State) (o : Outcome) :
  settled c = Some o ->
  settled (fst (FormatterV2.runEvents env c evs s)) = Some o.
Proof.
  revert c s. induction evs as [|ev evs IH]; intros c s Hc; [done|].
  destruct ev; simpl; apply IH; try done; unfold settle; by rewrite Hc.
Qed.

Lemma runEvents_cons (ev : Event) (evs : list Event) (c : Call) (s : State) :
  FormatterV2.runEvents env c (ev :: evs) s =
  FormatterV2.runEvents env (FormatterV2.onEvent env c ev s).1 evs
                        (FormatterV2.onEvent env c ev s).2.
Proof. simpl. by destruct (FormatterV2.onEvent env c ev s). Qed.

Lemma runEvents_decided
    (c : Call) (ev : Event) (rest : list Event) (s : State) (o : Outcome) :
  settled (fst (FormatterV2.onEvent env c ev s)) = Some o ->
  settled (fst (FormatterV2.runEvents env c (ev :: rest) s)) = Some o.
Proof. intros H. rewrite runEvents_cons. by apply runEvents_settled. Qed.

Lemma onEvent_never_undefined (c : Call) (ev : Event) (s : State) :
  settled c <> Some (Resolved None) ->
  settled (fst (FormatterV2.onEvent env c ev s)) <> Some (Resolved None).
Proof.
  intros Hc. destruct ev; simpl; try done; unfold settle;
    destruct (settled c) eqn:Hs; try (by rewrite Hs); simpl.
  - unfold errorOutcome. by repeat case_match.
  - unfold closeOutcome. by repeat case_match.
Qed.

Lemma runEvents_never_undefined (evs : list Event) (c : Call) (s : State) :
  settled c <> Some (Resolved None) ->
  settled (fst (FormatterV2.runEvents env c evs s)) <> Some (Resolved None).
Proof.
  revert c s. induction evs as [|ev evs IH]; intros c s Hc; [done|].
  rewrite runEvents_cons. apply IH. by apply onEvent_never_undefined.
Qed.

Lemma evict_spawned (workspace : WorkspaceFolder) (s : State) :
  FormatterV2.isFormatEnabled env workspace = true ->
  spawnTarget env workspace <> "" ->
  spawned (FormatterV2.evict env (Some workspace) s) = S (spawned s).
Proof.
  intros Hen Ht.
  by destruct (evict_enabled env workspace s Hen Ht) as (f & d & ->).
Qed.

End Settling.

(** X12: the promise is decided by the first error or close event. Data
    that came before is what a close reports; whatever comes after,
    further errors and closes included, does not change the outcome. *)
Theorem first_error_or_close_decides
    (env : Env) (c : Call) (pre rest : list Event) (ev : Event) (s : State) :
  settled c = None ->
  forallb isData pre = true ->
  isErrorOrClose ev = true ->
  settled (fst (FormatterV2.runEvents env c (pre ++ ev :: rest) s)) =
  Some (match ev with
        | CloseEvent code =>
            closeOutcome code
              (mkCall (currentWorkspace c) (callWorker c) (callExecutable c)
                      (result_text c +:+ stdoutOf env pre)
                      (error_text c +:+ stderrOf env pre) None)
        | ErrorEvent e => errorOutcome (callExecutable c) e
        | _ => Resolved None
        end).
Proof.
  intros Hc Hd Hev. rewrite runEvents_app.
  rewrite (runEvents_data env pre c s) by done. simpl fst. simpl snd.
  apply runEvents_decided.
  destruct ev; try discriminate; simpl; unfold settle; simpl; by rewrite Hc.
Qed.

Lemma first_error_or_close_decides_witness :
  settled (fst (FormatterV2.runEvents Sample.plain Sample.firstCall
                  ([StdoutData "use "; StdoutData "strict;"] ++
                   CloseEvent (Some 0%Z) ::
                   [StderrData "late"; CloseEvent (Some 1%Z);
                    ErrorEvent (OtherError "late")])
                  Sample.fresh)) =
  Some (Resolved (Some "use strict;")).
Proof.
  rewrite (first_error_or_close_decides Sample.plain Sample.firstCall
             [StdoutData "use "; StdoutData "strict;"]
             [StderrData "late"; CloseEvent (Some 1%Z);
              ErrorEvent (OtherError "late")]
             (CloseEvent (Some 0%Z)) Sample.fresh); reflexivity.
Defined.

(** X13: output alone never settles the promise: while neither an error
    nor a close arrives, [format] stays pending however much data the
    process sends (there is no timeout), and nothing but the call's two
    texts changes: each holds the chunks of its stream in their order,
    each chunk decoded on its own. *)
Theorem data_keeps_promise_pending
    (env : Env) (document : TextDocument) (range : Range)
    (s0 s1 s : State) (c : Call) (evs : list Event) :
  FormatterV2.format env document range s0 = (Pending c, s1) ->
  forallb isData evs = true ->
  FormatterV2.runEvents env c evs s =
  (mkCall (currentWorkspace c) (callWorker c) (callExecutable c)
          (stdoutOf env evs) (stderrOf env evs) None, s).
Proof.
  intros Hf Hd. apply format_pending_fresh in Hf as (Hr & He & Hs).
  rewrite runEvents_data by done. by rewrite Hr, He, Hs.
Qed.

Lemma data_keeps_promise_pending_witness :
  let s1 := snd (FormatterV2.format Sample.plain Sample.script
                   Sample.wholeFirstLine Sample.fresh) in
  FormatterV2.runEvents Sample.plain Sample.firstCall
    [StdoutData "use "; StderrData "warn"; StdoutData "strict;"] s1 =
  (mkCall (Some Sample.folder) 0 "perltidy" "use strict;" "warn" None, s1).
Proof.
  intros s1.
  apply (data_keeps_promise_pending Sample.plain Sample.script
           Sample.wholeFirstLine Sample.fresh s1 s1 Sample.firstCall
           [StdoutData "use "; StderrData "warn"; StdoutData "strict;"]);
    reflexivity.
Defined.

(** X14: what the [error] handler rejects with: for a missing executable
    ([ENOENT]) a [FormatError] that names the executable the process was
    started with, with the installation hint exactly when that
    executable is [perltidy]; for any other error, the error itself. *)
Theorem error_event_rejection
    (env : Env) (c : Call) (e : Thrown) (rest : list Event) (s : State) :
  settled c = None ->
  let promise :=
    settled (fst (FormatterV2.runEvents env c (ErrorEvent e :: rest) s)) in
  (errnoCode e = Some "ENOENT" -> callExecutable c = "perltidy" ->
     promise = Some (Rejected (FormatError
       "Format failed. Executable file (`perltidy`) is not found. You probably forgot to install perltidy."))) /\
  (errnoCode e = Some "ENOENT" -> callExecutable c <> "perltidy" ->
     promise = Some (Rejected (FormatError
       ("Format failed. Executable file (`" +:+ callExecutable c +:+
        "`) is not found.")))) /\
  (errnoCode e <> Some "ENOENT" -> promise = Some (Rejected e)).
Proof.
  intros Hc promise.
  assert (promise = Some (errorOutcome (callExecutable c) e)) as ->.
  { unfold promise. apply runEvents_decided. simpl. unfold settle.
    by rewrite Hc. }
  unfold errorOutcome. repeat split.
  - intros He ->. destruct e; try discriminate. simpl in *.
    by rewrite bool_decide_eq_true_2.
  - intros He Hx. destruct e; try discriminate. simpl in *.
    rewrite bool_decide_eq_true_2 by done.
    by destruct (String.eqb_spec (callExecutable c) "perltidy").
  - intros He. destruct e; simpl; try done.
    by rewrite bool_decide_eq_false_2.
Qed.

Lemma error_event_rejection_witness :
  settled (fst (FormatterV2.runEvents Sample.wrapped
                  (mkCall (Some Sample.folder) 0 "/ws/script/tidy.pl" "" "" None)
                  [ErrorEvent (ErrnoException "ENOENT" "spawn ENOENT")]
                  Sample.fresh)) =
  Some (Rejected (FormatError
    "Format failed. Executable file (`/ws/script/tidy.pl`) is not found.")).
Proof.
  destruct (error_event_rejection Sample.wrapped
              (mkCall (Some Sample.folder) 0 "/ws/script/tidy.pl" "" "" None)
              (ErrnoException "ENOENT" "spawn ENOENT") [] Sample.fresh)
    as (_ & H & _); [reflexivity|].
  apply H; [reflexivity|discriminate].
Defined.

(** X15: a process that ends without an exit code (the close event
    carries [null], as when a signal killed it) is a failure: the
    promise rejects with a [FormatError] that prints the code as
    [null], and the text received on standard output is dropped. *)
Theorem close_without_code_rejects
    (env : Env) (document : TextDocument) (range : Range)
    (s0 s1 s : State) (c : Call) (evs : list Event) :
  FormatterV2.format env document range s0 = (Pending c, s1) ->
  forallb isData evs = true ->
  settled (fst (FormatterV2.runEvents env c (evs ++ [CloseEvent None]) s)) =
  Some (Rejected (FormatError
    (if decide (stderrOf env evs = "")
     then "Format failed. Perltidy exited with exit code null."
     else "Format failed. Perltidy exited with exit code null. Error messages: "
          +:+ stderrOf env evs))).
Proof.
  intros Hf Hd. apply format_pending_fresh in Hf as (Hr & He & Hs).
  rewrite runEvents_app. rewrite (runEvents_data env evs c s) by done.
  simpl. unfold settle. simpl. rewrite Hs, He. simpl.
  change ("" +:+ stderrOf env evs) with (stderrOf env evs).
  unfold closeOutcome. simpl.
  destruct (decide (stderrOf env evs = "")) as [->|Hne]; [done|].
  by destruct (String.eqb_spec (stderrOf env evs) "").
Qed.

Lemma close_without_code_rejects_witness :
  settled (fst (FormatterV2.runEvents Sample.plain Sample.firstCall
                  ([StdoutData "use strict;"] ++ [CloseEvent None])
                  Sample.fresh)) =
  Some (Rejected (FormatError
    "Format failed. Perltidy exited with exit code null.")).
Proof.
  apply (close_without_code_rejects Sample.plain Sample.script
           Sample.wholeFirstLine Sample.fresh
           (snd (FormatterV2.format Sample.plain Sample.script
                   Sample.wholeFirstLine Sample.fresh))
           Sample.fresh Sample.firstCall [StdoutData "use strict;"]);
    reflexivity.
Defined.

(** X16: while formatting is enabled for the workspace and the file
    name that [createWorker] hands to [spawn] is not empty, every error
    or close event of a call starts one process, whether or not the
    promise had settled before: after the events, as many processes
    were spawned as there were such events. *)
Theorem each_error_or_close_spawns
    (env : Env) (c : Call) (evs : list Event) (s : State)
    (workspace : WorkspaceFolder) :
  currentWorkspace c = Some workspace ->
  FormatterV2.isFormatEnabled env workspace = true ->
  spawnTarget env workspace <> "" ->
  spawned (snd (FormatterV2.runEvents env c evs s)) =
  spawned s + length (List.filter isErrorOrClose evs).
Proof.
  intros Hws Hen Hfile. revert c s Hws.
  induction evs as [|ev evs IH]; intros c s Hws; simpl; [lia|].
  destruct ev; simpl; rewrite IH;
    try (unfold settle; by destruct (settled c)); try done;
    rewrite ?Hws, ?evict_spawned by done; lia.
Qed.

Lemma each_error_or_close_spawns_witness :
  spawned (snd (FormatterV2.runEvents Sample.plain Sample.firstCall
                  [StdoutData "x"; ErrorEvent (OtherError "boom");
                   CloseEvent (Some 1%Z)]
                  (mkState ∅ 1 []))) = 1 + 2.
Proof.
  apply (each_error_or_close_spawns Sample.plain Sample.firstCall
           [StdoutData "x"; ErrorEvent (OtherError "boom");
            CloseEvent (Some 1%Z)]
           (mkState ∅ 1 []) Sample.folder);
    [reflexivity|reflexivity|discriminate].
Defined.

(** X17: when a process signals an error and then closes (what Node does
    when the executable cannot be started), while formatting is enabled
    for the workspace and the file name that [createWorker] hands to
    [spawn] is not empty, both handlers refill the cache: the process
    spawned by the first one is deleted from the cache by the second
    one without ever having been written to, and a third process takes
    its place. *)
Theorem error_then_close_drops_standby
    (env : Env) (c : Call) (e : Thrown) (code : option Z) (s : State)
    (workspace : WorkspaceFolder) :
  currentWorkspace c = Some workspace ->
  FormatterV2.isFormatEnabled env workspace = true ->
  spawnTarget env workspace <> "" ->
  exists s',
    snd (FormatterV2.runEvents env c [ErrorEvent e; CloseEvent code] s) = s' /\
    log s' = log s ++
      [CacheDelete (Some workspace);
       Spawn (spawned s) (spawnTarget env workspace)
             (expectedArgs (profileSetting env)) (spawnCwd env workspace);
       CacheSet workspace (spawned s);
       CacheDelete (Some workspace);
       Spawn (S (spawned s)) (spawnTarget env workspace)
             (expectedArgs (profileSetting env)) (spawnCwd env workspace);
       CacheSet workspace (S (spawned s))] /\
    spawned s' = S (S (spawned s)) /\
    workerCacheMap s' !! workspace =
      Some (mkHandle (S (spawned s)) (spawnTarget env workspace)).
Proof.
  intros Hws Hen Hfile. simpl.
  assert (currentWorkspace (settle (errorOutcome (callExecutable c) e) c)
          = Some workspace) as ->
    by (unfold settle; by destruct (settled c)).
  rewrite Hws.
  assert (forall t, FormatterV2.evict env (Some workspace) t =
            mkState (<[workspace := mkHandle (spawned t)
                                      (spawnTarget env workspace)]>
                       (delete workspace (workerCacheMap t)))
                    (S (spawned t))
                    (log t ++ [CacheDelete (Some workspace);
                               Spawn (spawned t) (spawnTarget env workspace)
                                 (expectedArgs (profileSetting env))
                                 (spawnCwd env workspace);
                               CacheSet workspace (spawned t)])) as Hevict.
  { intros t. unfold FormatterV2.evict.
    rewrite (standBy_spawns env workspace (snd (cacheDelete (Some workspace) t))
               Hen (lookup_delete_eq (workerCacheMap t) workspace) Hfile).
    simpl. by rewrite <- app_assoc. }
  rewrite !Hevict. eexists. split; [done|]. simpl. split.
  - by rewrite <- app_assoc.
  - split; [done|]. apply lookup_insert_eq.
Qed.

Lemma error_then_close_drops_standby_witness :
  exists s',
    snd (FormatterV2.runEvents Sample.plain Sample.firstCall
           [ErrorEvent (ErrnoException "ENOENT" "spawn perltidy ENOENT");
            CloseEvent (Some (-2)%Z)]
           (mkState ∅ 1 [])) = s' /\
    log s' = [] ++
      [CacheDelete (Some Sample.folder);
       Spawn 1 "perltidy"
             ["--standard-output"; "-no-add-terminal-newline"] "/ws";
       CacheSet Sample.folder 1;
       CacheDelete (Some Sample.folder);
       Spawn 2 "perltidy"
             ["--standard-output"; "-no-add-terminal-newline"] "/ws";
       CacheSet Sample.folder 2] /\
    spawned s' = 3 /\
    workerCacheMap s' !! Sample.folder = Some (mkHandle 2 "perltidy").
Proof.
  apply (error_then_close_drops_standby Sample.plain Sample.firstCall
           (ErrnoException "ENOENT" "spawn perltidy ENOENT")
           (Some (-2)%Z) (mkState ∅ 1 []) Sample.folder);
    [reflexivity|reflexivity|discriminate].
Defined.

(** X18: if, when the process errors or closes, formatting is disabled for
    the workspace (auto-disable on, [.perltidyrc] gone), the handler
    only deletes the cache entry: no process is started, and the
    promise settles as it would otherwise. *)
Theorem eviction_when_disabled
    (env : Env) (c : Call) (ev : Event) (s : State)
    (workspace : WorkspaceFolder) :
  currentWorkspace c = Some workspace ->
  FormatterV2.isFormatEnabled env workspace = false ->
  isErrorOrClose ev = true ->
  snd (FormatterV2.onEvent env c ev s) =
    mkState (delete workspace (workerCacheMap s)) (spawned s)
            (log s ++ [CacheDelete (Some workspace)]) /\
  fst (FormatterV2.onEvent env c ev s) = fst (FormatterV1.onEvent env c ev s).
Proof.
  intros Hws Hen Hev.
  assert (FormatterV2.evict env (Some workspace) s =
          mkState (delete workspace (workerCacheMap s)) (spawned s)
                  (log s ++ [CacheDelete (Some workspace)])) as Hevict.
  { unfold FormatterV2.evict. by rewrite standBy_disabled. }
  destruct ev; try discriminate; simpl; by rewrite Hws, Hevict.
Qed.

Lemma eviction_when_disabled_witness :
  let s := mkState {[Sample.folder := mkHandle 0 "perltidy"]} 1 [] in
  snd (FormatterV2.onEvent Sample.autoDisabled Sample.firstCall
         (CloseEvent (Some 0%Z)) s) =
    mkState (delete Sample.folder {[Sample.folder := mkHandle 0 "perltidy"]})
            1 ([] ++ [CacheDelete (Some Sample.folder)]) /\
  fst (FormatterV2.onEvent Sample.autoDisabled Sample.firstCall
         (CloseEvent (Some 0%Z)) s) =
  fst (FormatterV1.onEvent Sample.autoDisabled Sample.firstCall
         (CloseEvent (Some 0%Z)) s).
Proof.
  intros s.
  apply (eviction_when_disabled Sample.autoDisabled Sample.firstCall
           (CloseEvent (Some 0%Z)) s Sample.folder); reflexivity.
Defined.

(** X19: the second revision never resolves to [undefined]: whatever the
    document, the range, the state and the events, [format] is pending,
    rejected, or resolved with a string. The silent-skip branch of the
    entry points cannot be taken. *)
Theorem formatV2_never_resolves_undefined
    (env : Env) (document : TextDocument) (range : Range)
    (evs : list Event) (s : State) :
  fst (Extension.awaitFormat env document range evs s)
  <> Some (Resolved None).
Proof.
  unfold Extension.awaitFormat.
  destruct (FormatterV2.format env document range s) as [[o|c] s1] eqn:Hf.
  - simpl. unfold FormatterV2.format in Hf.
    destruct (negb _ || _); [by inversion Hf|].
    destruct (FormatterV2.standBy env _ s) as [[h|e] s']; [|by inversion Hf].
    destruct (stdinWriteEnd env _ _ s') as [[u|e] s'']; by inversion Hf.
  - apply format_pending_fresh in Hf as (_ & _ & Hs).
    pose proof (runEvents_never_undefined env evs c s1) as H.
    destruct (FormatterV2.runEvents env c evs s1) as [c' s2]. simpl in *.
    apply H. by rewrite Hs.
Qed.

(** ** More on range resolution *)

Lemma scanBack_shape (document : TextDocument) (n : nat) (p : Position) :
  scanBack document n = Ok p -> character p = 0 /\ line p <= n.
Proof.
  revert p. induction n as [|n IH]; intros p; simpl.
  - intros [= <-]. simpl. lia.
  - destruct (lineAt document n) as [text|e]; simpl; [|done].
    destruct (0 <=? Js.lastIndexOf text ";")%Z.
    + intros [= <-]. simpl. lia.
    + intros H. apply IH in H. lia.
Qed.

(** X21: the on-type range is defined for every trigger line up to one
    past the last line; it is then a well-ordered range that starts at
    column 0 of a line not after the trigger line and ends at the
    trigger position. *)
Theorem onType_range_shape (document : TextDocument) (position : Position) :
  line position <= lineCount document ->
  exists r,
    onTypeFormattingRange document position = Ok r /\
    wfRange r /\
    character (start r) = 0 /\
    line (start r) <= line position /\
    end_ r = position.
Proof.
  intros Hle.
  destruct (scanBack_spec document (line position) Hle) as (p & Hp & _).
  pose proof (scanBack_shape _ _ _ Hp) as [Hc Hl].
  assert (isBeforeOrEqual p position = true) as Hord.
  { unfold isBeforeOrEqual.
    rewrite orb_true_iff, andb_true_iff, Nat.ltb_lt, Nat.eqb_eq, Nat.leb_le.
    lia. }
  unfold onTypeFormattingRange. rewrite Hp. simpl.
  rewrite (newRange_ordered _ _ Hord). eexists. split; [done|].
  by repeat split.
Qed.

Lemma onType_range_shape_witness :
  exists r,
    onTypeFormattingRange Sample.statements (mkPosition 6 0) = Ok r /\
    wfRange r /\
    character (start r) = 0 /\
    line (start r) <= 6 /\
    end_ r = mkPosition 6 0.
Proof.
  apply (onType_range_shape Sample.statements (mkPosition 6 0)).
  unfold lineCount. simpl. lia.
Defined.

(** X22: for a trigger line more than one past the last line, the scan
    asks the host for a line that does not exist: the provider throws
    before it reaches the formatter, outside its [try] block. *)
Theorem onType_beyond_document_throws
    (env : Env) (document : TextDocument) (position : Position)
    (cancelled : bool) (evs : list Event) (s : State) :
  lineCount document < line position ->
  onTypeFormattingRange document position =
    Throw (OtherError "Illegal value for `line`") /\
  Extension.provideOnTypeFormattingEdits env document position cancelled evs s
    = Throw (OtherError "Illegal value for `line`").
Proof.
  intros Hlt.
  assert (onTypeFormattingRange document position =
          Throw (OtherError "Illegal value for `line`")) as H.
  { unfold onTypeFormattingRange. destruct (line position) as [|n]; [lia|].
    simpl. unfold lineAt. rewrite lookup_ge_None_2; [done|].
    unfold lineCount in Hlt. lia. }
  split; [done|]. unfold Extension.provideOnTypeFormattingEdits.
  by rewrite H.
Qed.

Lemma onType_beyond_document_throws_witness :
  onTypeFormattingRange Sample.statements (mkPosition 9 0) =
    Throw (OtherError "Illegal value for `line`") /\
  Extension.provideOnTypeFormattingEdits Sample.plain Sample.statements
    (mkPosition 9 0) false [] Sample.fresh
    = Throw (OtherError "Illegal value for `line`").
Proof.
  apply (onType_beyond_document_throws Sample.plain Sample.statements
           (mkPosition 9 0) false [] Sample.fresh).
  unfold lineCount. simpl. lia.
Defined.

(** X23: resolving the range of the range-formatting action is
    idempotent: the resolved range is a well-ordered range on the same
    start line, it contains the candidate range, and resolving it again
    gives it back. *)
Theorem rangeFormatting_idempotent (document : TextDocument) (range : Range) :
  wfRange range ->
  exists r,
    rangeFormattingRange document range = Ok r /\
    rangeFormattingRange document r = Ok r /\
    wfRange r /\
    line (start r) = line (start range) /\
    isBeforeOrEqual (start r) (start range) = true /\
    end_ r = end_ range.
Proof.
  intros Hwf. destruct (indentOnly_dec document (start range)) as [Hb|Hb].
  - rewrite (rangeFormattingRange_blank _ _ Hwf Hb). eexists. split; [done|].
    assert (wfRange (mkRange (mkPosition (line (start range)) 0) (end_ range)))
      as Hwf'.
    { unfold wfRange. simpl.
      eapply isBeforeOrEqual_trans; [apply lineStart_before|exact Hwf]. }
    split.
    + rewrite (rangeFormattingRange_blank _ _ Hwf'); [done|].
      by apply indentOnly_column0.
    + repeat split; try done. simpl. apply lineStart_before.
  - rewrite (rangeFormattingRange_text _ _ Hb). eexists. split; [done|].
    split; [by apply rangeFormattingRange_text|]. repeat split; try done.
    unfold isBeforeOrEqual.
    rewrite Nat.eqb_refl, Nat.leb_refl. apply orb_true_r.
Qed.

Lemma rangeFormatting_idempotent_witness :
  exists r,
    rangeFormattingRange Sample.blocks
      (mkRange (mkPosition 0 2) (mkPosition 3 1)) = Ok r /\
    rangeFormattingRange Sample.blocks r = Ok r /\
    wfRange r /\
    line (start r) = 0 /\
    isBeforeOrEqual (start r) (mkPosition 0 2) = true /\
    end_ r = mkPosition 3 1.
Proof.
  apply (rangeFormatting_idempotent Sample.blocks
           (mkRange (mkPosition 0 2) (mkPosition 3 1))).
  reflexivity.
Defined.

(** ** The text of a range *)

Lemma getText_slice (document : TextDocument) (range : Range) :
  getText document range = sliceText document (validateRange document range).
Proof. reflexivity. Qed.

Lemma substring_empty (n m : nat) : String.substring n m "" = "".
Proof. by destruct n, m. Qed.

Lemma substring_zero (n : nat) (s : string) : String.substring n 0 s = "".
Proof.
  revert n. induction s as [|a s IH]; intros [|n]; simpl; try done.
Qed.

Lemma substring_all (s : string) : String.substring 0 (String.length s) s = s.
Proof. induction s as [|a s IH]; simpl; [done|]. by rewrite IH. Qed.

Lemma substring_split (s : string) (x y z : nat) :
  x <= y -> y <= z -> z <= String.length s ->
  String.substring x (z - x) s =
  String.substring x (y - x) s +:+ String.substring y (z - y) s.
Proof.
  revert x y z. induction s as [|a s IH]; intros x y z Hxy Hyz Hz.
  - by rewrite !substring_empty.
  - simpl in Hz. destruct x as [|x].
    + destruct y as [|y].
      * rewrite !Nat.sub_0_r. by rewrite substring_zero.
      * destruct z as [|z]; [lia|]. rewrite !Nat.sub_0_r. simpl.
        change (String a (String.substring 0 z s) =
                String a (String.substring 0 y s +:+ String.substring y (z - y) s)).
        f_equal. specialize (IH 0 y z). rewrite !Nat.sub_0_r in IH.
        apply IH; lia.
    + destruct y as [|y]; [lia|]. destruct z as [|z]; [lia|]. simpl.
      apply IH; lia.
Qed.

Lemma substring_js (s : string) (a b : nat) :
  a <= b -> b <= String.length s ->
  Js.substring a b s = String.substring a (b - a) s.
Proof.
  intros Hab Hb. unfold Js.substring, Js.length.
  by replace (a `min` String.length s) with a by lia;
     replace (b `min` String.length s) with b by lia;
     replace (a `min` b) with a by lia;
     replace (a `max` b) with b by lia.
Qed.

Lemma concat_cons_append (sep u v : string) (rest : list string) :
  String.concat sep ((u +:+ v) :: rest) = u +:+ String.concat sep (v :: rest).
Proof.
  destruct rest as [|w rest]; simpl; [done|]. by rewrite append_assoc.
Qed.

Lemma isBeforeOrEqual_spec (a b : Position) :
  isBeforeOrEqual a b = true <->
  line a < line b \/ (line a = line b /\ character a <= character b).
Proof.
  unfold isBeforeOrEqual.
  by rewrite orb_true_iff, andb_true_iff, Nat.ltb_lt, Nat.eqb_eq, Nat.leb_le.
Qed.

(** Moving the start of a range to the left on its line puts the
    skipped piece of the line in front of the text. *)
Lemma sliceText_split
    (document : TextDocument) (l x y : nat) (b : Position) :
  x <= y -> y <= String.length (lineText document l) ->
  isBeforeOrEqual (mkPosition l y) b = true ->
  (line b = l -> character b <= String.length (lineText document l)) ->
  sliceText document (mkRange (mkPosition l x) b) =
  String.substring x (y - x) (lineText document l) +:+
  sliceText document (mkRange (mkPosition l y) b).
Proof.
  intros Hxy Hy Hord Hb. apply isBeforeOrEqual_spec in Hord. simpl in Hord.
  destruct b as [lb cb]. simpl in *.
  unfold sliceText, isEmpty, isEqual, isSingleLine. simpl.
  destruct (Nat.eqb_spec l lb) as [<-|Hl]; simpl.
  - assert (y <= cb) as Hycb by lia. specialize (Hb eq_refl).
    destruct (Nat.eqb_spec x cb) as [->|Hx], (Nat.eqb_spec y cb) as [->|Hy'].
    + by rewrite Nat.sub_diag, substring_zero.
    + lia.
    + rewrite substring_js by lia. by rewrite append_empty_r.
    + rewrite !substring_js by lia. apply substring_split; lia.
  - unfold Js.join, Js.length.
    rewrite (substring_js (lineText document l) x
               (String.length (lineText document l))) by lia.
    rewrite (substring_js (lineText document l) y
               (String.length (lineText document l))) by lia.
    rewrite (substring_split _ x y (String.length (lineText document l)))
      by lia.
    apply concat_cons_append.
Qed.

Lemma validatePosition_line_only
    (document : TextDocument) (l c c' : nat) :
  lineCount document <= l ->
  validatePosition document (mkPosition l c) =
  validatePosition document (mkPosition l c').
Proof.
  intros Hl. unfold validatePosition. simpl.
  destruct (lineCount document =? 0); [done|].
  destruct (Nat.leb_spec (lineCount document) l); [done|lia].
Qed.

Lemma validatePosition_inside (document : TextDocument) (l c : nat) :
  l < lineCount document ->
  validatePosition document (mkPosition l c) =
  mkPosition l (c `min` String.length (lineText document l)).
Proof.
  intros Hl. unfold validatePosition. simpl.
  destruct (Nat.eqb_spec (lineCount document) 0); [lia|].
  destruct (Nat.leb_spec (lineCount document) l); [lia|done].
Qed.

Lemma validatePosition_bounds (document : TextDocument) (q : Position) :
  0 < lineCount document ->
  line (validatePosition document q) < lineCount document /\
  character (validatePosition document q) <=
    String.length (lineText document (line (validatePosition document q))).
Proof.
  intros Hn. unfold validatePosition.
  destruct (Nat.eqb_spec (lineCount document) 0); [lia|].
  destruct (Nat.leb_spec (lineCount document) (line q)); simpl;
    unfold Js.length; lia.
Qed.

Lemma validatePosition_monotone (document : TextDocument) (p q : Position) :
  isBeforeOrEqual p q = true ->
  isBeforeOrEqual (validatePosition document p) (validatePosition document q)
  = true.
Proof.
  rewrite !isBeforeOrEqual_spec. intros Hpq. unfold validatePosition.
  destruct (Nat.eqb_spec (lineCount document) 0); [simpl; lia|].
  destruct (Nat.leb_spec (lineCount document) (line p)),
           (Nat.leb_spec (lineCount document) (line q));
    simpl; unfold Js.length; try lia.
  - destruct (decide (line p = lineCount document - 1)) as [Heq|Hne]; [|lia].
    right. split; [done|]. rewrite Heq. lia.
  - destruct Hpq as [Hlt|[Heq Hc]]; [lia|]. right. split; [done|].
    rewrite Heq. lia.
Qed.

(** The text from the start of a line is the indentation in front of a
    column followed by the text from that column. *)
Lemma getText_from_line_start (document : TextDocument) (range : Range) :
  wfRange range ->
  getText document
    (mkRange (mkPosition (line (start range)) 0) (end_ range)) =
  indentBefore document (start range) +:+ getText document range.
Proof.
  intros Hwf. destruct range as [[l c] q]. unfold wfRange in Hwf. simpl in *.
  rewrite !getText_slice. unfold validateRange, indentBefore. simpl.
  destruct (Nat.leb_spec (lineCount document) l) as [Hout|Hin].
  - rewrite (validatePosition_line_only document l 0 c Hout).
    rewrite (lineText_outside document l Hout), substring_empty. done.
  - rewrite !validatePosition_inside by done.
    replace (0 `min` String.length (lineText document l)) with 0 by lia.
    set (y := c `min` String.length (lineText document l)).
    pose proof (validatePosition_monotone document _ _ Hwf) as Hord.
    rewrite validatePosition_inside in Hord by done. fold y in Hord.
    destruct (validatePosition_bounds document q) as [_ Hq]; [lia|].
    rewrite (newRange_ordered (mkPosition l y) _ Hord).
    rewrite newRange_ordered.
    2:{ eapply isBeforeOrEqual_trans; [|exact Hord].
        apply isBeforeOrEqual_spec. simpl. lia. }
    rewrite (sliceText_split document l 0 y); try done; try lia.
    + by rewrite Nat.sub_0_r.
    + intros <-. exact Hq.
Qed.

(** X24: when the range-formatting action moves the start of the range to
    column 0, the text handed to the formatter is the text of the
    candidate range with the line's leading white space in front of it,
    and nothing else. *)
Theorem rangeFormatting_adds_only_indent
    (document : TextDocument) (range : Range) :
  wfRange range ->
  indentOnly document (start range) ->
  exists r,
    rangeFormattingRange document range = Ok r /\
    getText document r =
      indentBefore document (start range) +:+ getText document range /\
    Js.matchBlank (indentBefore document (start range)) = true.
Proof.
  intros Hwf Hb. rewrite (rangeFormattingRange_blank _ _ Hwf Hb).
  eexists. split; [done|]. split.
  - by apply getText_from_line_start.
  - apply matchBlank_indent in Hb. by rewrite getText_indent in Hb.
Qed.

Lemma rangeFormatting_adds_only_indent_witness :
  exists r,
    rangeFormattingRange Sample.blocks
      (mkRange (mkPosition 0 2) (mkPosition 3 1)) = Ok r /\
    getText Sample.blocks r =
      indentBefore Sample.blocks (mkPosition 0 2) +:+
      getText Sample.blocks (mkRange (mkPosition 0 2) (mkPosition 3 1)) /\
    Js.matchBlank (indentBefore Sample.blocks (mkPosition 0 2)) = true.
Proof.
  apply (rangeFormatting_adds_only_indent Sample.blocks
           (mkRange (mkPosition 0 2) (mkPosition 3 1))).
  - reflexivity.
  - intros i c Hi Hget. simpl in Hi.
    destruct i as [|[|i]]; [| |lia]; simpl in Hget; inversion Hget; reflexivity.
Defined.

Lemma substring_js_all (s : string) : Js.substring 0 (String.length s) s = s.
Proof.
  rewrite substring_js by lia. rewrite Nat.sub_0_r. apply substring_all.
Qed.

Lemma length_zero_empty (s : string) : String.length s = 0 -> s = "".
Proof. by destruct s. Qed.

Lemma sliceText_whole (document : TextDocument) (n : nat) (text : string) :
  lineCount document = S n ->
  lines document !! n = Some text ->
  sliceText document
    (mkRange (mkPosition 0 0) (mkPosition n (String.length text))) =
  fullText document.
Proof.
  intros Hcount Hlast. unfold fullText, Js.join, lineCount in *.
  destruct (lines document) as [|l0 tl] eqn:Hlines; [done|].
  simpl in Hcount. injection Hcount as Hcount.
  unfold sliceText, isEmpty, isEqual, isSingleLine, lineText, Js.length.
  rewrite Hlines. simpl.
  destruct n as [|m].
  - destruct tl; [|done]. simpl in *. injection Hlast as <-.
    destruct (String.length l0) eqn:Hlen; simpl.
    + symmetry. by apply length_zero_empty.
    + rewrite <- Hlen. apply substring_js_all.
  - simpl. simpl in Hlast. rewrite Hlast. simpl.
    rewrite !substring_js_all. rewrite Nat.sub_0_r.
    rewrite drop_0, <- (take_S_r tl m text Hlast).
    by rewrite take_ge by lia.
Qed.

(** X25: without a selection, or with an empty one, and without a given
    range, [get_range] covers the whole document: it starts at (0,0)
    and its text is all the lines joined by the document's line
    ending. *)
Theorem get_range_whole_document
    (document : TextDocument) (selection : option Range) :
  lines document <> [] ->
  selection = None \/
  (exists sel, selection = Some sel /\ isEmpty sel = true) ->
  exists r,
    get_range document None selection = Ok r /\
    start r = mkPosition 0 0 /\
    line (end_ r) = lineCount document - 1 /\
    getText document r = fullText document.
Proof.
  intros Hne Hsel.
  assert (get_range document None selection = get_range document None None)
    as ->.
  { destruct Hsel as [->|(sel & -> & He)]; [done|].
    unfold get_range. by rewrite He. }
  unfold get_range. destruct (lineCount document) as [|n] eqn:Hcount.
  { unfold lineCount in Hcount. by destruct (lines document). }
  unfold lineAt. destruct (lines document !! n) as [text|] eqn:Hlast.
  2:{ apply lookup_ge_None in Hlast. unfold lineCount in Hcount. lia. }
  simpl. unfold Js.length.
  assert (isBeforeOrEqual (mkPosition 0 0) (mkPosition n (String.length text))
          = true) as Hord by (apply isBeforeOrEqual_spec; simpl; lia).
  rewrite (newRange_ordered _ _ Hord). eexists. split; [done|].
  split; [done|]. split; [simpl; lia|].
  rewrite getText_slice. unfold validateRange. simpl.
  rewrite !validatePosition_inside by lia.
  unfold lineText at 2. rewrite Hlast. simpl.
  rewrite Nat.min_id.
  rewrite (newRange_ordered _ _ Hord). by apply sliceText_whole.
Qed.

Lemma get_range_whole_document_witness :
  exists r,
    get_range Sample.blocks None (Some Sample.nothing) = Ok r /\
    start r = mkPosition 0 0 /\
    line (end_ r) = lineCount Sample.blocks - 1 /\
    getText Sample.blocks r = fullText Sample.blocks.
Proof.
  apply (get_range_whole_document Sample.blocks (Some Sample.nothing)).
  - discriminate.
  - right. exists Sample.nothing. split; reflexivity.
Defined.

(** A selection that is not empty wins: [get_range] returns it (its
    two ends in order) whatever range was given, so the command formats
    the selection only. *)
Theorem get_range_prefers_selection
    (document : TextDocument) (range : option Range) (sel : Range) :
  wfRange sel ->
  isEmpty sel = false ->
  get_range document range (Some sel) = Ok sel.
Proof.
  intros Hwf Hne. unfold get_range. rewrite Hne. simpl.
  rewrite (newRange_ordered _ _ Hwf). by destruct sel.
Qed.

Lemma get_range_prefers_selection_witness :
  get_range Sample.blocks (Some Sample.lineBreak) (Some Sample.wholeFirstLine)
  = Ok Sample.wholeFirstLine.
Proof.
  apply (get_range_prefers_selection Sample.blocks (Some Sample.lineBreak)
           Sample.wholeFirstLine); reflexivity.
Defined.

(** ** The entry points, end to end *)

Section EndToEnd.
Context (env : Env).

Lemma awaitFormat_pending
    (document : TextDocument) (range : Range) (evs : list Event)
    (s s1 : State) (c : Call) :
  FormatterV2.format env document range s = (Pending c, s1) ->
  Extension.awaitFormat env document range evs s =
  (settled (fst (FormatterV2.runEvents env c evs s1)),
   snd (FormatterV2.runEvents env c evs s1)).
Proof.
  intros Hf. unfold Extension.awaitFormat. rewrite Hf.
  by destruct (FormatterV2.runEvents env c evs s1).
Qed.

Lemma awaitFormat_close
    (document : TextDocument) (range : Range) (evs : list Event)
    (code : option Z) (s s1 : State) (c : Call) :
  FormatterV2.format env document range s = (Pending c, s1) ->
  forallb isData evs = true ->
  fst (Extension.awaitFormat env document range (evs ++ [CloseEvent code]) s) =
  Some (closeOutcome code
          (mkCall (currentWorkspace c) (callWorker c) (callExecutable c)
                  (stdoutOf env evs) (stderrOf env evs) None)).
Proof.
  intros Hf Hd. rewrite (awaitFormat_pending _ _ _ _ _ _ Hf). simpl.
  apply format_pending_fresh in Hf as (Hr & He & Hs).
  rewrite runEvents_app. rewrite (runEvents_data env evs c s1) by done.
  simpl. unfold settle. simpl. by rewrite Hs, Hr, He.
Qed.

Lemma closeOutcome_cases (code : option Z) (c : Call) :
  (code = Some 0%Z /\ closeOutcome code c = Resolved (Some (result_text c))) \/
  (code <> Some 0%Z /\ exists message,
     closeOutcome code c = Rejected (FormatError message)).
Proof.
  unfold closeOutcome. destruct (decide (code = Some 0%Z)) as [->|Hne].
  - left. by rewrite bool_decide_eq_true_2.
  - right. split; [done|]. rewrite bool_decide_eq_false_2 by done. simpl.
    destruct (String.eqb _ _); by eexists.
Qed.

End EndToEnd.

(** X26: the range-formatting action, for a process that sends its output
    and closes: with exit code 0 it returns exactly one edit, which
    replaces the resolved range by the text accumulated from standard
    output (the chunks in their order, each decoded on its own); with
    any other code it returns no edit and hands a [FormatError] to
    [handleTidyError]. *)
Theorem rangeFormatting_reply_on_close
    (env : Env) (document : TextDocument) (range r : Range)
    (evs : list Event) (code : option Z) (s s1 : State) (c : Call) :
  rangeFormattingRange document range = Ok r ->
  FormatterV2.format env document r s = (Pending c, s1) ->
  forallb isData evs = true ->
  exists reply s',
    Extension.provideDocumentRangeFormattingEdits env document range
      (evs ++ [CloseEvent code]) s = Ok (Some reply, s') /\
    (code = Some 0%Z ->
       reply = mkReply (Some [mkTextEdit r (stdoutOf env evs)]) None) /\
    (code <> Some 0%Z ->
       edits reply = None /\
       exists message, handled reply = Some (FormatError message)).
Proof.
  intros Hr Hf Hd. unfold Extension.provideDocumentRangeFormattingEdits.
  rewrite Hr. simpl.
  pose proof (awaitFormat_close env document r evs code s s1 c Hf Hd) as Ha.
  destruct (Extension.awaitFormat env document r (evs ++ [CloseEvent code]) s)
    as [o s'].
  simpl in Ha. subst o. eexists _, s'. split; [done|]. simpl.
  destruct (closeOutcome_cases code
              (mkCall (currentWorkspace c) (callWorker c) (callExecutable c)
                      (stdoutOf env evs) (stderrOf env evs) None))
    as [[-> ->]|[Hne (message & ->)]]; simpl.
  - by split.
  - split; [done|]. intros _. split; [done|]. by exists message.
Qed.

Lemma rangeFormatting_reply_on_close_witness :
  exists reply s',
    Extension.provideDocumentRangeFormattingEdits Sample.plain Sample.blocks
      (mkRange (mkPosition 0 2) (mkPosition 3 1))
      ([StdoutData "  do {"; StdoutData " 1 }"] ++ [CloseEvent (Some 0%Z)])
      Sample.fresh = Ok (Some reply, s') /\
    (Some 0%Z = Some 0%Z ->
       reply = mkReply
                 (Some [mkTextEdit (mkRange (mkPosition 0 0) (mkPosition 3 1))
                                   (stdoutOf Sample.plain [StdoutData "  do {";
                                              StdoutData " 1 }"])])
                 None) /\
    (Some 0%Z <> Some 0%Z ->
       edits reply = None /\
       exists message, handled reply = Some (FormatError message)).
Proof.
  apply (rangeFormatting_reply_on_close Sample.plain Sample.blocks
           (mkRange (mkPosition 0 2) (mkPosition 3 1))
           (mkRange (mkPosition 0 0) (mkPosition 3 1))
           [StdoutData "  do {"; StdoutData " 1 }"] (Some 0%Z) Sample.fresh
           (snd (FormatterV2.format Sample.plain Sample.blocks
                   (mkRange (mkPosition 0 0) (mkPosition 3 1)) Sample.fresh))
           Sample.firstCall); reflexivity.
Defined.

(** X27: the on-type action looks at the cancellation token only after the
    formatter has answered: when cancellation was requested it returns
    no edit although the process was used just the same; otherwise,
    after exit code 0, it returns one edit that replaces the resolved
    range by the text accumulated from standard output (the chunks in
    their order, each decoded on its own). *)
Theorem onType_reply_and_cancellation
    (env : Env) (document : TextDocument) (position : Position) (r : Range)
    (cancelled : bool) (evs : list Event) (s s1 : State) (c : Call) :
  onTypeFormattingRange document position = Ok r ->
  FormatterV2.format env document r s = (Pending c, s1) ->
  forallb isData evs = true ->
  Extension.provideOnTypeFormattingEdits env document position cancelled
    (evs ++ [CloseEvent (Some 0%Z)]) s =
  Ok (Some (if cancelled then mkReply None None
            else mkReply (Some [mkTextEdit r (stdoutOf env evs)]) None),
      snd (FormatterV2.runEvents env c (evs ++ [CloseEvent (Some 0%Z)]) s1)).
Proof.
  intros Hr Hf Hd. unfold Extension.provideOnTypeFormattingEdits.
  rewrite Hr. simpl.
  pose proof (awaitFormat_close env document r evs (Some 0%Z) s s1 c Hf Hd)
    as Ha.
  rewrite (awaitFormat_pending env _ _ _ _ _ _ Hf) in *. simpl in Ha.
  rewrite Ha. simpl. by destruct cancelled.
Qed.

Lemma onType_reply_and_cancellation_witness :
  let r := mkRange (mkPosition 4 0) (mkPosition 5 9) in
  let s1 := snd (FormatterV2.format Sample.plain Sample.statements r
                   Sample.fresh) in
  Extension.provideOnTypeFormattingEdits Sample.plain Sample.statements
    (mkPosition 5 9) true ([StdoutData "}"] ++ [CloseEvent (Some 0%Z)])
    Sample.fresh =
  Ok (Some (mkReply None None),
      snd (FormatterV2.runEvents Sample.plain Sample.firstCall
             ([StdoutData "}"] ++ [CloseEvent (Some 0%Z)]) s1)).
Proof.
  intros r s1.
  apply (onType_reply_and_cancellation Sample.plain Sample.statements
           (mkPosition 5 9) r true [StdoutData "}"] Sample.fresh s1
           Sample.firstCall); reflexivity.
Defined.

(** X28: with auto-disable on and no [.perltidyrc], the range-formatting
    action of the extension does not skip silently: the rejection of
    [standBy] reaches [handleTidyError], no edit is returned and no
    process is started. *)
Theorem rangeFormatting_autoDisable_reports_error
    (env : Env) (document : TextDocument) (range r : Range)
    (evs : list Event) (s : State) (workspace : WorkspaceFolder) :
  rangeFormattingRange document range = Ok r ->
  getText document r <> "" ->
  getWorkspaceFolder env (documentUri document) = Some workspace ->
  autoDisableSetting env = true ->
  existsSync env (join env (path (uri workspace)) ".perltidyrc") = false ->
  Extension.provideDocumentRangeFormattingEdits env document range evs s =
  Ok (Some (mkReply None (Some (FormatError noWorkspaceMessage))), s).
Proof.
  intros Hr Ht Hw Hauto Hrc.
  unfold Extension.provideDocumentRangeFormattingEdits, Extension.awaitFormat.
  rewrite Hr. simpl. rewrite formatV2_nonempty by done. rewrite Hw.
  rewrite standBy_disabled; [done|]. by apply isFormatEnabled_false.
Qed.

Lemma rangeFormatting_autoDisable_reports_error_witness :
  Extension.provideDocumentRangeFormattingEdits Sample.autoDisabled
    Sample.script Sample.wholeFirstLine [] Sample.fresh =
  Ok (Some (mkReply None (Some (FormatError noWorkspaceMessage))),
      Sample.fresh).
Proof.
  apply (rangeFormatting_autoDisable_reports_error Sample.autoDisabled
           Sample.script Sample.wholeFirstLine Sample.wholeFirstLine []
           Sample.fresh Sample.folder).
  - reflexivity.
  - vm_compute. discriminate.
  - reflexivity.
  - reflexivity.
  - reflexivity.
Defined.

(** For a range whose text is empty the entry points answer at once,
    without a process: the range-formatting action returns one edit
    that replaces the range by the empty string. *)
Theorem empty_range_edit
    (env : Env) (document : TextDocument) (range r : Range)
    (evs : list Event) (s : State) :
  rangeFormattingRange document range = Ok r ->
  getText document r = "" ->
  Extension.provideDocumentRangeFormattingEdits env document range evs s =
  Ok (Some (mkReply (Some [mkTextEdit r ""]) None), s).
Proof.
  intros Hr Ht.
  unfold Extension.provideDocumentRangeFormattingEdits, Extension.awaitFormat.
  rewrite Hr. simpl. unfold FormatterV2.format. by rewrite Ht.
Qed.

Lemma empty_range_edit_witness :
  Extension.provideDocumentRangeFormattingEdits Sample.plain Sample.script
    Sample.nothing [] Sample.fresh =
  Ok (Some (mkReply (Some [mkTextEdit Sample.nothing ""]) None), Sample.fresh).
Proof.
  apply (empty_range_edit Sample.plain Sample.script Sample.nothing
           Sample.nothing [] Sample.fresh); reflexivity.
Defined.
